(** * Onboarding step sequencer

    A shallow embedding of the onboarding steps module of the wallet
    (firstOnboardingScreen, onboardingPropsSelector, getOnboardingStepValues,
    goToNextOnboardingScreen and _getStepInfo), followed by the properties
    of the step decision table, of the step counter and of the navigation
    driver.

    The navigator functions and the dispatch function that _getStepInfo
    receives are callbacks that act on the outside world.  They are modelled
    as state transformers over an arbitrary state type, so that the same
    embedding of _getStepInfo is run

    - by the step counter, on its four local variables;
    - by the navigation driver, on the log of calls made to
      NavigationService and to the redux store;
    - by a mock navigator that records the calls it receives. *)

From stdpp Require Import base decidable option list strings.
From Stdlib Require Import Lia.

(** ** Data model *)

(** The members of the Screens enum that the two source files name; every
    other member of the enum is an [OtherScreen]. *)
Module Screens.
Inductive t : Set :=
  | ChooseYourAdventure
  | EnableBiometry
  | ImportSelect
  | ImportWallet
  | LinkPhoneNumber
  | PincodeSet
  | ProtectWallet
  | SendConfirmation
  | SendConfirmationModal
  | SignInWithEmail
  | TabHome
  | VerificationStartScreen
  | Welcome
  | OtherScreen (name : string).

#[global] Instance eq_dec : EqDecision t.
Proof. solve_decision. Defined.
End Screens.

(** BIOMETRY_TYPE of react-native-keychain. *)
Module BIOMETRY_TYPE.
Inductive t : Set := TOUCH_ID | FACE_ID | OPTIC_ID | FINGERPRINT | FACE | IRIS.
End BIOMETRY_TYPE.

Module ToggleableOnboardingFeatures.
Inductive t : Set :=
  | CloudBackup
  | CloudBackupSetupInOnboarding
  | PhoneVerification
  | ProtectWallet
  | EnableBiometry.
End ToggleableOnboardingFeatures.

Module KeylessBackupFlow.
Inductive t : Set := Setup | Restore.
End KeylessBackupFlow.

Module KeylessBackupOrigin.
Inductive t : Set := Onboarding | Settings.
End KeylessBackupOrigin.

(** The route parameters that the sequencer passes along with a screen. *)
Record RouteParams : Set := {
  keylessBackupFlow : KeylessBackupFlow.t;
  origin : KeylessBackupOrigin.t
}.

(** [boolean | undefined] is [option bool]; [BIOMETRY_TYPE | null] is
    [option BIOMETRY_TYPE.t]. *)
Record OnboardingProps : Set := {
  recoveringFromStoreWipe : bool;
  choseToRestoreAccount : option bool;
  supportedBiometryType : option BIOMETRY_TYPE.t;
  skipVerification : bool;
  numberAlreadyVerifiedCentrally : bool;
  showCloudAccountBackupRestore : bool;
  showCloudAccountBackupSetup : bool;
  skipProtectWallet : bool
}.

(** The redux actions the module creates. *)
Inductive Action : Set :=
  | initializeAccount
  | onboardingCompleted
  | updateLastOnboardingScreen (screen : Screens.t)
  | updateStatsigAndNavigate (screen : Screens.t).

(** A thrown [Error] and the outcome of a call that may throw. *)
Record Error : Set := { message : string }.

Inductive Result (A : Type) : Type :=
  | Ok (a : A)
  | Throw (e : Error).
Arguments Ok {A} a.
Arguments Throw {A} e.

(** JavaScript truthiness of a [boolean | undefined]. *)
Definition truthy (b : option bool) : bool :=
  match b with
  | Some true => true
  | _ => false
  end.

(** [!== null] on a [BIOMETRY_TYPE | null]. *)
Definition notNull {A : Type} (x : option A) : bool :=
  match x with
  | Some _ => true
  | None => false
  end.

(** [Array.prototype.includes] on an array of screens. *)
Fixpoint includes (l : list Screens.t) (x : Screens.t) : bool :=
  match l with
  | [] => false
  | y :: l' => if decide (y = x) then true else includes l' x
  end.

Definition END_OF_ONBOARDING_SCREENS : list Screens.t :=
  [Screens.TabHome; Screens.ChooseYourAdventure].

(** ** Callbacks as state transformers *)

(** A callback returning [void], acting on a state of type [State]. *)
Definition Cmd (State : Type) : Type := State -> State.

Definition seq {State : Type} (c1 c2 : Cmd State) : Cmd State :=
  fun st => c2 (c1 st).
Infix ">>>" := seq (at level 61, left associativity).

Definition skip {State : Type} : Cmd State := fun st => st.

Record NavigatorFunctions (State : Type) : Type := {
  navigate : Screens.t -> option RouteParams -> Cmd State;
  popToScreen : Screens.t -> Cmd State;
  finishOnboarding : Screens.t -> Cmd State;
  navigateClearingStack : Screens.t -> option RouteParams -> Cmd State
}.
Arguments navigate {State}.
Arguments popToScreen {State}.
Arguments finishOnboarding {State}.
Arguments navigateClearingStack {State}.

Record StepInfo (State : Type) : Type := { next : Cmd State }.
Arguments Build_StepInfo {State}.
Arguments next {State}.

(** ** The step counter's local variables *)

Record SimState : Set := {
  stepCounter : nat;
  totalCounter : nat;
  reachedStep : bool;
  currentScreen : Screens.t
}.

Record StepValues : Set := { totalSteps : nat; step : nat }.

(** ** The navigation driver's outside world: the calls it makes, oldest
    first. *)
Inductive Event : Set :=
  | NavigationService_navigate (screen : Screens.t) (params : option RouteParams)
  | NavigationService_popToScreen (screen : Screens.t)
  | NavigationService_navigateClearingStack (screen : Screens.t) (params : option RouteParams)
  | store_dispatch (action : Action).

Definition World : Set := list Event.

(** ** Calls received by a mock navigator and a mock dispatch *)
Inductive Call : Set :=
  | CallNavigate (screen : Screens.t) (params : option RouteParams)
  | CallPopToScreen (screen : Screens.t)
  | CallFinishOnboarding (screen : Screens.t)
  | CallNavigateClearingStack (screen : Screens.t) (params : option RouteParams)
  | CallDispatch (action : Action).

(** The screens that have a case in the switch of _getStepInfo. *)
Definition handledScreens : list Screens.t :=
  [Screens.PincodeSet; Screens.EnableBiometry; Screens.ImportSelect;
   Screens.SignInWithEmail; Screens.ImportWallet; Screens.LinkPhoneNumber;
   Screens.VerificationStartScreen; Screens.ProtectWallet].

(** The number of transitions that can still follow a screen: the variant
    of the while loop of getOnboardingStepValues. *)
Definition rank (s : Screens.t) : nat :=
  match s with
  | Screens.PincodeSet => 4
  | Screens.EnableBiometry => 3
  | Screens.ImportSelect
  | Screens.SignInWithEmail
  | Screens.ImportWallet
  | Screens.ProtectWallet => 2
  | Screens.LinkPhoneNumber
  | Screens.VerificationStartScreen => 1
  | _ => 0
  end.

(** A state from which the loop can run: its current screen is handled by
    the table or ends the onboarding. *)
Definition runnable (st : SimState) : Prop :=
  0 < rank (currentScreen st) \/
  includes END_OF_ONBOARDING_SCREENS (currentScreen st) = true.

(** The calls that may precede the advance or the finish of a transition. *)
Inductive isPreparation : Call -> Prop :=
  | prep_popToWelcome : isPreparation (CallPopToScreen Screens.Welcome)
  | prep_initializeAccount : isPreparation (CallDispatch initializeAccount).

(** What the navigation driver does on each call of the navigator port. *)
Definition driverEvents (c : Call) : list Event :=
  match c with
  | CallNavigate screen params => [NavigationService_navigate screen params]
  | CallPopToScreen screen => [NavigationService_popToScreen screen]
  | CallFinishOnboarding screen =>
      [store_dispatch onboardingCompleted;
       store_dispatch (updateLastOnboardingScreen screen);
       store_dispatch (updateStatsigAndNavigate screen)]
  | CallNavigateClearingStack screen params =>
      [NavigationService_navigateClearingStack screen params]
  | CallDispatch action => [store_dispatch action]
  end.

(** The screen a call leads to, if it is an advance or a finish. *)
Definition leadsTo (d : Screens.t) (c : Call) : bool :=
  match c with
  | CallNavigate screen _
  | CallNavigateClearingStack screen _
  | CallFinishOnboarding screen => bool_decide (screen = d)
  | CallPopToScreen _
  | CallDispatch _ => false
  end.

(** The screens that a log of the driver's calls records as the last
    onboarding screen, oldest first. *)
Fixpoint updatedLastScreens (evs : list Event) : list Screens.t :=
  match evs with
  | [] => []
  | store_dispatch (updateLastOnboardingScreen screen) :: evs' =>
      screen :: updatedLastScreens evs'
  | _ :: evs' => updatedLastScreens evs'
  end.

(** The same snapshot with supportedBiometryType set to null. *)
Definition withoutBiometry (props : OnboardingProps) : OnboardingProps :=
  {| recoveringFromStoreWipe := recoveringFromStoreWipe props;
     choseToRestoreAccount := choseToRestoreAccount props;
     supportedBiometryType := None;
     skipVerification := skipVerification props;
     numberAlreadyVerifiedCentrally := numberAlreadyVerifiedCentrally props;
     showCloudAccountBackupRestore := showCloudAccountBackupRestore props;
     showCloudAccountBackupSetup := showCloudAccountBackupSetup props;
     skipProtectWallet := skipProtectWallet props |}.

(** A user with face recognition who chose to restore an account, with the
    cloud backup enabled. *)
Definition restoringWithBiometry : OnboardingProps :=
  {| recoveringFromStoreWipe := false;
     choseToRestoreAccount := Some true;
     supportedBiometryType := Some BIOMETRY_TYPE.FACE_ID;
     skipVerification := false;
     numberAlreadyVerifiedCentrally := false;
     showCloudAccountBackupRestore := true;
     showCloudAccountBackupSetup := false;
     skipProtectWallet := false |}.

(** The snapshot of scenario A; the scenario leaves
    showCloudAccountBackupRestore open. *)
Definition scenarioA (restore : bool) : OnboardingProps :=
  {| recoveringFromStoreWipe := false;
     choseToRestoreAccount := None;
     supportedBiometryType := None;
     skipVerification := false;
     numberAlreadyVerifiedCentrally := false;
     showCloudAccountBackupRestore := restore;
     showCloudAccountBackupSetup := false;
     skipProtectWallet := false |}.

(** Scenario A with the phone verification skipped. *)
Definition scenarioD : OnboardingProps :=
  {| recoveringFromStoreWipe := false;
     choseToRestoreAccount := None;
     supportedBiometryType := None;
     skipVerification := true;
     numberAlreadyVerifiedCentrally := false;
     showCloudAccountBackupRestore := false;
     showCloudAccountBackupSetup := false;
     skipProtectWallet := false |}.

(** Scenario A for a user whose number is already verified centrally. *)
Definition scenarioAVerified : OnboardingProps :=
  {| recoveringFromStoreWipe := false;
     choseToRestoreAccount := None;
     supportedBiometryType := None;
     skipVerification := false;
     numberAlreadyVerifiedCentrally := true;
     showCloudAccountBackupRestore := false;
     showCloudAccountBackupSetup := false;
     skipProtectWallet := false |}.

(** A configuration with every onboarding feature enabled, one with every
    feature disabled, and a naming of the screens by their identifiers, used
    to run the definitions on concrete inputs. *)
Definition allFeaturesEnabled : ToggleableOnboardingFeatures.t -> bool :=
  fun _ => true.

Definition noFeatureEnabled : ToggleableOnboardingFeatures.t -> bool :=
  fun _ => false.

Definition screenIdentifier (s : Screens.t) : string :=
  match s with
  | Screens.ChooseYourAdventure => "ChooseYourAdventure"
  | Screens.EnableBiometry => "EnableBiometry"
  | Screens.ImportSelect => "ImportSelect"
  | Screens.ImportWallet => "ImportWallet"
  | Screens.LinkPhoneNumber => "LinkPhoneNumber"
  | Screens.PincodeSet => "PincodeSet"
  | Screens.ProtectWallet => "ProtectWallet"
  | Screens.SendConfirmation => "SendConfirmation"
  | Screens.SendConfirmationModal => "SendConfirmationModal"
  | Screens.SignInWithEmail => "SignInWithEmail"
  | Screens.TabHome => "TabHome"
  | Screens.VerificationStartScreen => "VerificationStartScreen"
  | Screens.Welcome => "Welcome"
  | Screens.OtherScreen name => name
  end.

(** ** The send confirmation screen (src/send/SendConfirmation.tsx) *)

(** A value that may be [null] or [undefined]. *)
Inductive Nullable (A : Type) : Type :=
  | Value (a : A)
  | Null
  | Undefined.
Arguments Value {A} a.
Arguments Null {A}.
Arguments Undefined {A}.

(** [x ?? undefined], with [None] for [undefined]. *)
Definition orUndefined {A : Type} (x : Nullable A) : option A :=
  match x with
  | Value a => Some a
  | Null | Undefined => None
  end.

(** JavaScript truthiness of a [string | undefined]: the empty string is
    falsy. *)
Definition truthyString (s : option string) : bool :=
  match s with
  | Some EmptyString => false
  | Some (String _ _) => true
  | None => false
  end.

Module RecipientType.
Inductive t : Set := PhoneNumber | OtherRecipientType (name : string).
End RecipientType.

Module SendConfirmation.

(** What the screen takes from the rest of the application: the types of
    the values it passes along, and getAddressFromPhoneNumber. *)
Class Collaborators : Type := {
  BigNumber : Type;
  BigNumber_toString : BigNumber -> string;
  PreparedTransaction : Type;
  SendOrigin : Type;
  LocalCurrencyCode : Type;
  NetworkId : Type;
  TokenInfo : Type;
  TokenInfo_symbol : TokenInfo -> string;
  TokenInfo_networkId : TokenInfo -> NetworkId;
  FeeInfo : Type;
  RecipientDetails : Type;
  E164NumberToAddress : Type;
  SecureSendPhoneNumberMapping : Type;
  getAddressFromPhoneNumber :
    string -> E164NumberToAddress -> SecureSendPhoneNumberMapping ->
    option string -> Nullable string
}.

Section Model.
Context `{Collaborators}.

(** A Recipient: the three fields the screen reads and writes, and the
    rest of the object. *)
Record Recipient : Type := {
  address : option string;
  e164PhoneNumber : option string;
  recipientType : RecipientType.t;
  details : RecipientDetails
}.

(** The function that useRecipientToSendTo memoizes, on the values of its
    two selectors. *)
Definition useRecipientToSendTo
    (secureSendPhoneNumberMapping : SecureSendPhoneNumberMapping)
    (e164NumberToAddress : E164NumberToAddress)
    (paramRecipient : Recipient) : Recipient :=
  if negb (truthyString (address paramRecipient)) &&
     truthyString (e164PhoneNumber paramRecipient)
  then
    match e164PhoneNumber paramRecipient with
    | Some e164 =>
        let recipientAddress :=
          getAddressFromPhoneNumber e164 e164NumberToAddress
            secureSendPhoneNumberMapping None in
        {| address := orUndefined recipientAddress;
           e164PhoneNumber := Some e164;
           recipientType := RecipientType.PhoneNumber;
           details := details paramRecipient |}
    | None => paramRecipient
    end
  else paramRecipient.

(** The properties of the send_confirm_send analytics event. *)
Record SendConfirmSend : Type := {
  event_origin : SendOrigin;
  event_recipientType : RecipientType.t;
  event_isScan : option bool;
  event_localCurrency : LocalCurrencyCode;
  event_usdAmount : option string;
  event_localCurrencyAmount : option string;
  event_tokenAmount : string;
  event_tokenSymbol : string;
  event_tokenAddress : option string;
  event_networkId : option NetworkId;
  event_tokenId : string;
  event_commentLength : nat
}.

(** What onSend does to the outside world. *)
Inductive Effect : Type :=
  | ValoraAnalytics_track_send_confirm_send (properties : SendConfirmSend)
  | dispatch_showError_SEND_PAYMENT_FAILED
  | dispatch_sendPayment
      (amount : BigNumber) (tokenId : string) (usdAmount : option BigNumber)
      (comment : string) (recipient : Recipient) (fromModal : bool)
      (feeInfo : option FeeInfo) (preparedTransaction : PreparedTransaction).

(** The values of the component that disableSend and onSend read. *)
Record Component : Type := {
  routeName : Screens.t;
  sendOrigin : SendOrigin;
  isFromScan : option bool;
  tokenAddress : option string;
  tokenId : string;
  preparedTransaction : option PreparedTransaction;
  comment : string;
  tokenInfo : option TokenInfo;
  isSending : bool;
  localCurrencyCode : LocalCurrencyCode;
  localAmount : option BigNumber;
  tokenAmount : BigNumber;
  usdAmount : option BigNumber;
  recipient : Recipient
}.

Definition fromModal (c : Component) : bool :=
  bool_decide (routeName c = Screens.SendConfirmationModal).

Definition disableSend (c : Component) : bool :=
  isSending c || negb (notNull (preparedTransaction c)).

Definition onSend (c : Component) : list Effect :=
  match preparedTransaction c with
  | None => [dispatch_showError_SEND_PAYMENT_FAILED]
  | Some preparedTransaction =>
      [ValoraAnalytics_track_send_confirm_send
         {| event_origin := sendOrigin c;
            event_recipientType := recipientType (recipient c);
            event_isScan := isFromScan c;
            event_localCurrency := localCurrencyCode c;
            event_usdAmount := BigNumber_toString <$> usdAmount c;
            event_localCurrencyAmount := BigNumber_toString <$> localAmount c;
            event_tokenAmount := BigNumber_toString (tokenAmount c);
            event_tokenSymbol := default ""%string (TokenInfo_symbol <$> tokenInfo c);
            event_tokenAddress := tokenAddress c;
            event_networkId := TokenInfo_networkId <$> tokenInfo c;
            event_tokenId := tokenId c;
            event_commentLength := String.length (comment c) |};
       dispatch_sendPayment (tokenAmount c) (tokenId c) (usdAmount c) (comment c)
         (recipient c) (fromModal c) None preparedTransaction]
  end.

End Model.
End SendConfirmation.

(** Collaborators and a component on which to run the definitions of the
    send confirmation screen: amounts are integers, and the address book
    maps the number +15551234567 to one address. *)
Definition sampleCollaborators : SendConfirmation.Collaborators :=
  {| SendConfirmation.BigNumber := nat;
     SendConfirmation.BigNumber_toString := fun n => if decide (n = 0) then "0" else "n";
     SendConfirmation.PreparedTransaction := string;
     SendConfirmation.SendOrigin := unit;
     SendConfirmation.LocalCurrencyCode := string;
     SendConfirmation.NetworkId := string;
     SendConfirmation.TokenInfo := string * string;
     SendConfirmation.TokenInfo_symbol := fst;
     SendConfirmation.TokenInfo_networkId := snd;
     SendConfirmation.FeeInfo := unit;
     SendConfirmation.RecipientDetails := string;
     SendConfirmation.E164NumberToAddress := unit;
     SendConfirmation.SecureSendPhoneNumberMapping := unit;
     SendConfirmation.getAddressFromPhoneNumber := fun e164 _ _ _ =>
       if decide (e164 = "+15551234567") then Value "0xabc" else Null |}.

Definition samplePhoneRecipient : @SendConfirmation.Recipient sampleCollaborators :=
  @SendConfirmation.Build_Recipient sampleCollaborators
    None (Some "+15551234567"%string)
    (RecipientType.OtherRecipientType "Address") "Alice"%string.

(** A component showing a payment of 5 tokens to that recipient, with a
    prepared transaction and nothing being sent. *)
Definition sampleComponent : @SendConfirmation.Component sampleCollaborators :=
  @SendConfirmation.Build_Component sampleCollaborators
    Screens.SendConfirmation tt (Some false) None "celo-mainnet:native"%string
    (Some "tx"%string) "thanks"%string
    (Some ("CELO"%string, "celo-mainnet"%string))
    false "USD"%string None 5 (Some 3)
    (@SendConfirmation.useRecipientToSendTo sampleCollaborators tt tt
       samplePhoneRecipient).

(** Settles one row of the decision table, given its preparation calls. *)
Ltac transition_with pre :=
  exists pre; split;
  [ repeat constructor
  | solve [ right; reflexivity
          | left; eexists _, _; split; [reflexivity | cbn; lia] ] ].

Section Steps.

(** The configuration constant ONBOARDING_FEATURES_ENABLED and the string
    value of each member of the Screens enum are declared outside the
    module. *)
Variable ONBOARDING_FEATURES_ENABLED : ToggleableOnboardingFeatures.t -> bool.
Variable screenValue : Screens.t -> string.

(** *** firstOnboardingScreen *)
Definition firstOnboardingScreen (recoveringFromStoreWipe : bool) : Screens.t :=
  if recoveringFromStoreWipe then
    if ONBOARDING_FEATURES_ENABLED ToggleableOnboardingFeatures.CloudBackup
    then Screens.ImportSelect
    else Screens.ImportWallet
  else Screens.PincodeSet.

(** *** onboardingPropsSelector

    The result function of the selector, applied to the values of its four
    input selectors. *)
Definition onboardingPropsSelector
    (recoveringFromStoreWipe : bool)
    (choseToRestoreAccount : option bool)
    (supportedBiometryType : option BIOMETRY_TYPE.t)
    (numberAlreadyVerifiedCentrally : bool) : OnboardingProps :=
  let showCloudAccountBackupRestore :=
    ONBOARDING_FEATURES_ENABLED ToggleableOnboardingFeatures.CloudBackup in
  let skipVerification :=
    negb (ONBOARDING_FEATURES_ENABLED ToggleableOnboardingFeatures.PhoneVerification) in
  let showCloudAccountBackupSetup :=
    ONBOARDING_FEATURES_ENABLED ToggleableOnboardingFeatures.CloudBackup &&
    ONBOARDING_FEATURES_ENABLED ToggleableOnboardingFeatures.CloudBackupSetupInOnboarding in
  let skipProtectWallet :=
    negb (ONBOARDING_FEATURES_ENABLED ToggleableOnboardingFeatures.ProtectWallet) in
  {| recoveringFromStoreWipe := recoveringFromStoreWipe;
     choseToRestoreAccount := choseToRestoreAccount;
     supportedBiometryType :=
       if ONBOARDING_FEATURES_ENABLED ToggleableOnboardingFeatures.EnableBiometry
       then supportedBiometryType
       else None;
     skipVerification := skipVerification;
     numberAlreadyVerifiedCentrally := numberAlreadyVerifiedCentrally;
     showCloudAccountBackupRestore := showCloudAccountBackupRestore;
     showCloudAccountBackupSetup := showCloudAccountBackupSetup;
     skipProtectWallet := skipProtectWallet |}.

(** *** _getStepInfo *)
Section GetStepInfo.
Context {State : Type}.
Variable navigator : NavigatorFunctions State.
Variable dispatch : Action -> Cmd State.
Variable props : OnboardingProps.

Definition wrapNavigate (screen : Screens.t) (params : option RouteParams) : Cmd State :=
  navigate navigator screen params >>>
  dispatch (updateLastOnboardingScreen screen).

Definition navigateImportOrImportSelect : Cmd State :=
  if showCloudAccountBackupRestore props
  then wrapNavigate Screens.ImportSelect None
  else wrapNavigate Screens.ImportWallet None.

Definition _getStepInfo (firstScreenInStep : Screens.t) : Result (StepInfo State) :=
  match firstScreenInStep with
  | Screens.PincodeSet =>
      Ok {| next :=
        if notNull (supportedBiometryType props) then
          wrapNavigate Screens.EnableBiometry None
        else if truthy (choseToRestoreAccount props) then
          popToScreen navigator Screens.Welcome >>>
          navigateImportOrImportSelect
        else if showCloudAccountBackupSetup props then
          dispatch initializeAccount >>>
          wrapNavigate Screens.SignInWithEmail
            (Some {| keylessBackupFlow := KeylessBackupFlow.Setup;
                     origin := KeylessBackupOrigin.Onboarding |})
        else
          dispatch initializeAccount >>>
          (if skipProtectWallet props
           then finishOnboarding navigator Screens.ChooseYourAdventure
           else wrapNavigate Screens.ProtectWallet None) |}
  | Screens.EnableBiometry =>
      Ok {| next :=
        if truthy (choseToRestoreAccount props) then
          navigateImportOrImportSelect
        else if showCloudAccountBackupSetup props then
          dispatch initializeAccount >>>
          wrapNavigate Screens.SignInWithEmail
            (Some {| keylessBackupFlow := KeylessBackupFlow.Setup;
                     origin := KeylessBackupOrigin.Onboarding |})
        else
          dispatch initializeAccount >>>
          (if skipProtectWallet props
           then finishOnboarding navigator Screens.ChooseYourAdventure
           else wrapNavigate Screens.ProtectWallet None) |}
  | Screens.ImportSelect =>
      Ok {| next :=
        if skipVerification props || numberAlreadyVerifiedCentrally props
        then finishOnboarding navigator Screens.ChooseYourAdventure
        else wrapNavigate Screens.LinkPhoneNumber None |}
  | Screens.SignInWithEmail =>
      Ok {| next :=
        if skipVerification props || numberAlreadyVerifiedCentrally props
        then finishOnboarding navigator Screens.ChooseYourAdventure
        else wrapNavigate Screens.VerificationStartScreen None |}
  | Screens.ImportWallet =>
      Ok {| next :=
        if skipVerification props || numberAlreadyVerifiedCentrally props
        then finishOnboarding navigator Screens.ChooseYourAdventure
        else wrapNavigate Screens.VerificationStartScreen None |}
  | Screens.LinkPhoneNumber
  | Screens.VerificationStartScreen =>
      Ok {| next := finishOnboarding navigator Screens.ChooseYourAdventure |}
  | Screens.ProtectWallet =>
      Ok {| next :=
        if skipVerification props
        then finishOnboarding navigator Screens.ChooseYourAdventure
        else wrapNavigate Screens.VerificationStartScreen None |}
  | _ =>
      Throw {| message :=
        ("No step info found for " +:+ screenValue firstScreenInStep +:+
         ". this step needs to be handled in _getStepInfo")%string |}
  end.
End GetStepInfo.

(** *** getOnboardingStepValues *)
Section StepCounter.
(** The arguments of getOnboardingStepValues. *)
Variable screen : Screens.t.
Variable onboardingProps : OnboardingProps.

(** The dummy navigation function. *)
Definition nextStepAndCount (nextScreen : Screens.t) (_ : option RouteParams)
  : Cmd SimState :=
  fun st =>
    let st :=
      if negb (includes END_OF_ONBOARDING_SCREENS nextScreen) then
        let st := {| stepCounter := stepCounter st;
                     totalCounter := S (totalCounter st);
                     reachedStep := reachedStep st;
                     currentScreen := currentScreen st |} in
        let st :=
          if decide (currentScreen st = screen) then
            {| stepCounter := stepCounter st;
               totalCounter := totalCounter st;
               reachedStep := true;
               currentScreen := currentScreen st |}
          else st in
        if negb (reachedStep st) then
          {| stepCounter := S (stepCounter st);
             totalCounter := totalCounter st;
             reachedStep := reachedStep st;
             currentScreen := currentScreen st |}
        else st
      else st in
    {| stepCounter := stepCounter st;
       totalCounter := totalCounter st;
       reachedStep := reachedStep st;
       currentScreen := nextScreen |}.

(** The step counter's finishOnboarding. *)
Definition simFinishOnboarding (nextScreen : Screens.t) : Cmd SimState :=
  fun st =>
    {| stepCounter := stepCounter st;
       totalCounter := totalCounter st;
       reachedStep := reachedStep st;
       currentScreen := nextScreen |}.

Definition simNavigator : NavigatorFunctions SimState :=
  {| navigate := nextStepAndCount;
     popToScreen := fun _ => skip;
     finishOnboarding := simFinishOnboarding;
     navigateClearingStack := nextStepAndCount |}.

Definition simDispatch : Action -> Cmd SimState := fun _ => skip.

(** One iteration of the while loop.  _getStepInfo returns an object or
    throws, so the guard on a missing stepInfo never fires and the only
    exception that leaves the body is the one _getStepInfo throws. *)
Definition loopBody (st : SimState) : Result SimState :=
  match _getStepInfo simNavigator simDispatch onboardingProps (currentScreen st) with
  | Throw e => Throw e
  | Ok stepInfo => Ok (next stepInfo st)
  end.

(** The while loop, with [fuel] bounding the number of iterations:
    [None] when the bound is reached before the loop condition fails. *)
Fixpoint whileLoop (fuel : nat) (st : SimState) : option (Result SimState) :=
  if includes END_OF_ONBOARDING_SCREENS (currentScreen st) then Some (Ok st)
  else
    match fuel with
    | O => None
    | S fuel' =>
        match loopBody st with
        | Throw e => Some (Throw e)
        | Ok st' => whileLoop fuel' st'
        end
    end.

(** The values of currentScreen at the successive tests of the loop
    condition. *)
Fixpoint visitedScreens (fuel : nat) (st : SimState) : list Screens.t :=
  currentScreen st ::
  (if includes END_OF_ONBOARDING_SCREENS (currentScreen st) then []
   else
     match fuel with
     | O => []
     | S fuel' =>
         match loopBody st with
         | Throw _ => []
         | Ok st' => visitedScreens fuel' st'
         end
     end).

Definition initialSimState : SimState :=
  {| stepCounter := 1;
     totalCounter := 1;
     reachedStep := false;
     currentScreen := firstOnboardingScreen (recoveringFromStoreWipe onboardingProps) |}.

Definition getOnboardingStepValues (fuel : nat) : option (Result StepValues) :=
  match whileLoop fuel initialSimState with
  | None => None
  | Some (Throw e) => Some (Throw e)
  | Some (Ok st) =>
      Some (Ok {| totalSteps := totalCounter st; step := stepCounter st |})
  end.
End StepCounter.

(** *** goToNextOnboardingScreen *)
Definition NavigationService : NavigatorFunctions World :=
  {| navigate := fun screen params w => w ++ [NavigationService_navigate screen params];
     popToScreen := fun screen w => w ++ [NavigationService_popToScreen screen];
     finishOnboarding := fun screen =>
       (fun w => w ++ [store_dispatch onboardingCompleted]) >>>
       (fun w => w ++ [store_dispatch (updateLastOnboardingScreen screen)]) >>>
       (fun w => w ++ [store_dispatch (updateStatsigAndNavigate screen)]);
     navigateClearingStack := fun screen params w =>
       w ++ [NavigationService_navigateClearingStack screen params] |}.

Definition storeDispatch : Action -> Cmd World :=
  fun action w => w ++ [store_dispatch action].

Definition goToNextOnboardingScreen
    (firstScreenInCurrentStep : Screens.t) (onboardingProps : OnboardingProps)
    (w : World) : Result World :=
  match _getStepInfo NavigationService storeDispatch onboardingProps
          firstScreenInCurrentStep with
  | Throw e => Throw e
  | Ok stepInfo => Ok (next stepInfo w)
  end.

(** *** The calls a transition makes

    _getStepInfo run with a navigator and a dispatch that only record the
    calls they receive, oldest first. *)
Definition mockNavigator : NavigatorFunctions (list Call) :=
  {| navigate := fun screen params l => l ++ [CallNavigate screen params];
     popToScreen := fun screen l => l ++ [CallPopToScreen screen];
     finishOnboarding := fun screen l => l ++ [CallFinishOnboarding screen];
     navigateClearingStack := fun screen params l =>
       l ++ [CallNavigateClearingStack screen params] |}.

Definition mockDispatch : Action -> Cmd (list Call) :=
  fun action l => l ++ [CallDispatch action].

Definition transitionCalls (props : OnboardingProps) (firstScreenInStep : Screens.t)
  : Result (list Call) :=
  match _getStepInfo mockNavigator mockDispatch props firstScreenInStep with
  | Throw e => Throw e
  | Ok stepInfo => Ok (next stepInfo [])
  end.

(** Running a recorded call on any navigator and dispatch. *)
Definition runCall {State : Type} (navigator : NavigatorFunctions State)
    (dispatch : Action -> Cmd State) (c : Call) : Cmd State :=
  match c with
  | CallNavigate screen params => navigate navigator screen params
  | CallPopToScreen screen => popToScreen navigator screen
  | CallFinishOnboarding screen => finishOnboarding navigator screen
  | CallNavigateClearingStack screen params => navigateClearingStack navigator screen params
  | CallDispatch action => dispatch action
  end.

Definition runCalls {State : Type} (navigator : NavigatorFunctions State)
    (dispatch : Action -> Cmd State) (calls : list Call) : Cmd State :=
  fun st => fold_left (fun st c => runCall navigator dispatch c st) calls st.

(** ** Properties *)

(** *** The decision table, as calls on the navigator port *)

Lemma includes_true l x : includes l x = true <-> x ∈ l.
Proof.
  induction l as [|y l IH]; simpl.
  - split; [done | by intros ?%elem_of_nil].
  - rewrite elem_of_cons. destruct (decide (y = x)) as [->|Hne].
    + by split; [left|].
    + rewrite IH. split; [by right | by intros [?|?]].
Qed.

Lemma includes_false l x : includes l x = false <-> x ∉ l.
Proof.
  rewrite <- includes_true. by destruct (includes l x); split.
Qed.

Lemma handled_rank s : includes handledScreens s = true <-> 0 < rank s.
Proof. destruct s; cbn; split; first [done | lia]. Qed.

Lemma runCalls_app {State : Type} (navigator : NavigatorFunctions State) dispatch l1 l2 st :
  runCalls navigator dispatch (l1 ++ l2) st =
  runCalls navigator dispatch l2 (runCalls navigator dispatch l1 st).
Proof. unfold runCalls. apply fold_left_app. Qed.

(** The function that _getStepInfo returns makes, on any navigator and
    dispatch, the calls it makes on the mock ones; and _getStepInfo throws
    on the one exactly when it throws on the other. *)
Lemma getStepInfo_runCalls {State : Type} (navigator : NavigatorFunctions State)
    dispatch props s :
  match transitionCalls props s with
  | Ok calls =>
      exists stepInfo,
        _getStepInfo navigator dispatch props s = Ok stepInfo /\
        forall st, next stepInfo st = runCalls navigator dispatch calls st
  | Throw e => _getStepInfo navigator dispatch props s = Throw e
  end.
Proof.
  unfold transitionCalls.
  destruct s; cbn [_getStepInfo next]; try reflexivity;
    (eexists; split; [reflexivity|]; intros st; cbn [next];
     unfold navigateImportOrImportSelect;
     repeat case_match; reflexivity).
Qed.

(** Every handled screen makes some preparation calls and then either
    advances, to a screen of smaller positive rank and recording it as the
    last onboarding screen, or finishes on ChooseYourAdventure. *)
Lemma transitionCalls_handled props s :
  includes handledScreens s = true ->
  exists pre, Forall isPreparation pre /\
    ((exists d p,
        transitionCalls props s =
          Ok (pre ++ [CallNavigate d p; CallDispatch (updateLastOnboardingScreen d)]) /\
        0 < rank d < rank s) \/
     transitionCalls props s =
       Ok (pre ++ [CallFinishOnboarding Screens.ChooseYourAdventure])).
Proof.
  intros Hs.
  destruct s; try discriminate Hs; clear Hs;
    unfold transitionCalls; cbn [_getStepInfo next];
    unfold navigateImportOrImportSelect;
    repeat case_match;
    first
      [ transition_with (@nil Call)
      | transition_with [CallDispatch initializeAccount]
      | transition_with [CallPopToScreen Screens.Welcome] ].
Qed.

Lemma transitionCalls_unhandled props s :
  includes handledScreens s = false ->
  transitionCalls props s =
    Throw {| message :=
      ("No step info found for " +:+ screenValue s +:+
       ". this step needs to be handled in _getStepInfo")%string |}.
Proof. intros Hs. by destruct s. Qed.

(** *** One iteration of the step counter *)

Lemma loopBody_runCalls screen props st :
  loopBody screen props st =
  match transitionCalls props (currentScreen st) with
  | Ok calls => Ok (runCalls (simNavigator screen) simDispatch calls st)
  | Throw e => Throw e
  end.
Proof.
  unfold loopBody.
  pose proof (getStepInfo_runCalls (simNavigator screen) simDispatch props
                (currentScreen st)) as Hrun.
  destruct (transitionCalls props (currentScreen st)) as [calls|e].
  - destruct Hrun as (stepInfo & -> & Hnext). by rewrite Hnext.
  - by rewrite Hrun.
Qed.

(** The step counter ignores the preparation calls. *)
Lemma sim_preparation screen pre st :
  Forall isPreparation pre ->
  runCalls (simNavigator screen) simDispatch pre st = st.
Proof.
  induction 1 as [|c pre Hc _ IH]; [done|].
  change (c :: pre) with ([c] ++ pre). rewrite runCalls_app.
  destruct Hc; exact IH.
Qed.

Lemma loopBody_handled screen props st :
  includes handledScreens (currentScreen st) = true ->
  (exists d p,
      loopBody screen props st = Ok (nextStepAndCount screen d p st) /\
      0 < rank d < rank (currentScreen st)) \/
  loopBody screen props st =
    Ok (simFinishOnboarding Screens.ChooseYourAdventure st).
Proof.
  intros Hs. rewrite loopBody_runCalls.
  destruct (transitionCalls_handled props _ Hs)
    as (pre & Hpre & [(d & p & -> & Hrank) | ->]);
    rewrite runCalls_app, (sim_preparation _ _ _ Hpre).
  - left. by exists d, p.
  - by right.
Qed.

Lemma loopBody_unhandled screen props st :
  includes handledScreens (currentScreen st) = false ->
  loopBody screen props st =
    Throw {| message :=
      ("No step info found for " +:+ screenValue (currentScreen st) +:+
       ". this step needs to be handled in _getStepInfo")%string |}.
Proof.
  intros Hs. by rewrite loopBody_runCalls, (transitionCalls_unhandled _ _ Hs).
Qed.

Lemma loopBody_Ok screen props st st' :
  loopBody screen props st = Ok st' ->
  (exists d p,
      st' = nextStepAndCount screen d p st /\
      0 < rank d < rank (currentScreen st)) \/
  st' = simFinishOnboarding Screens.ChooseYourAdventure st.
Proof.
  destruct (includes handledScreens (currentScreen st)) eqn:Hs.
  - destruct (loopBody_handled screen props st Hs) as [(d & p & -> & Hrank) | ->];
      intros [= <-]; [left; by exists d, p | by right].
  - by rewrite (loopBody_unhandled _ _ _ Hs).
Qed.

Lemma currentScreen_nextStepAndCount screen d p st :
  currentScreen (nextStepAndCount screen d p st) = d.
Proof. reflexivity. Qed.

Lemma nextStepAndCount_le screen d p st :
  stepCounter st <= totalCounter st ->
  stepCounter (nextStepAndCount screen d p st) <=
  totalCounter (nextStepAndCount screen d p st).
Proof.
  intros Hle. unfold nextStepAndCount.
  destruct (includes END_OF_ONBOARDING_SCREENS d); cbn; [done|].
  destruct (decide (currentScreen st = screen)); cbn; [lia|].
  destruct (reachedStep st); cbn; lia.
Qed.

(** While the target is not the current screen, the two counters move
    together. *)
Lemma nextStepAndCount_lockstep screen d p st :
  currentScreen st <> screen ->
  reachedStep st = false ->
  stepCounter st = totalCounter st ->
  reachedStep (nextStepAndCount screen d p st) = false /\
  stepCounter (nextStepAndCount screen d p st) =
  totalCounter (nextStepAndCount screen d p st).
Proof.
  intros Hne Hreached Heq. unfold nextStepAndCount.
  destruct (includes END_OF_ONBOARDING_SCREENS d); cbn; [done|].
  destruct (decide (currentScreen st = screen)); [done|]; cbn.
  rewrite Hreached; cbn. by rewrite Heq.
Qed.

Lemma rank_pos_not_end s :
  0 < rank s -> includes END_OF_ONBOARDING_SCREENS s = false.
Proof. destruct s; cbn; first [done | lia]. Qed.

(** *** The while loop and its fuel *)

Lemma whileLoop_end screen props fuel st :
  includes END_OF_ONBOARDING_SCREENS (currentScreen st) = true ->
  whileLoop screen props fuel st = Some (Ok st).
Proof. intros Hend. destruct fuel; cbn [whileLoop]; by rewrite Hend. Qed.

(** A run that ends within [fuel] iterations ends the same way with any
    larger bound. *)
Lemma whileLoop_more_fuel screen props fuel k st r :
  whileLoop screen props fuel st = Some r ->
  whileLoop screen props (fuel + k) st = Some r.
Proof.
  revert st. induction fuel as [|fuel IH]; intros st; cbn [whileLoop Nat.add].
  - destruct (includes END_OF_ONBOARDING_SCREENS (currentScreen st)) eqn:Hend; [|done].
    intros <-. by apply whileLoop_end.
  - destruct (includes END_OF_ONBOARDING_SCREENS (currentScreen st)); [done|].
    destruct (loopBody screen props st); [apply IH | done].
Qed.

Lemma getOnboardingStepValues_more_fuel screen props fuel k r :
  getOnboardingStepValues screen props fuel = Some r ->
  getOnboardingStepValues screen props (fuel + k) = Some r.
Proof.
  unfold getOnboardingStepValues.
  destruct (whileLoop screen props fuel _) as [res|] eqn:Hrun; [|done].
  by rewrite (whileLoop_more_fuel _ _ _ k _ _ Hrun).
Qed.

Lemma loopBody_runnable screen props st :
  0 < rank (currentScreen st) ->
  exists st',
    loopBody screen props st = Ok st' /\
    runnable st' /\
    rank (currentScreen st') < rank (currentScreen st).
Proof.
  intros Hpos.
  destruct (loopBody_handled screen props st) as [(d & p & -> & Hrank) | ->].
  - by apply handled_rank.
  - eexists; split; [reflexivity|].
    unfold runnable. rewrite !currentScreen_nextStepAndCount.
    split; [left|]; lia.
  - eexists; split; [reflexivity|]. split; [by right | exact Hpos].
Qed.

(** The rank of the current screen bounds the number of iterations. *)
Lemma whileLoop_terminates screen props fuel st :
  runnable st ->
  rank (currentScreen st) <= fuel ->
  exists st',
    whileLoop screen props fuel st = Some (Ok st') /\
    includes END_OF_ONBOARDING_SCREENS (currentScreen st') = true.
Proof.
  revert st. induction fuel as [|fuel IH]; intros st [Hpos | Hend] Hfuel;
    try (exists st; split; [by apply whileLoop_end | done]).
  - lia.
  - cbn [whileLoop]. rewrite (rank_pos_not_end _ Hpos).
    destruct (loopBody_runnable screen props st Hpos) as (st' & -> & Hrun & Hlt).
    apply IH; [done | lia].
Qed.

(** The screens the loop goes through have decreasing ranks, so that none
    comes twice. *)
Lemma visitedScreens_rank screen props fuel st :
  runnable st ->
  NoDup (visitedScreens screen props fuel st) /\
  forall x, x ∈ visitedScreens screen props fuel st ->
            rank x <= rank (currentScreen st).
Proof.
  revert st. induction fuel as [|fuel IH]; intros st Hrun; cbn [visitedScreens].
  - destruct (includes _ _); split;
      first [ apply NoDup_singleton | by intros x ->%list_elem_of_singleton ].
  - destruct Hrun as [Hpos | Hend].
    + rewrite (rank_pos_not_end _ Hpos).
      destruct (loopBody_runnable screen props st Hpos) as (st' & -> & Hrun' & Hlt).
      destruct (IH st' Hrun') as [Hnodup Hranks]. split.
      * apply NoDup_cons. split; [|done].
        intros Hin%Hranks. lia.
      * intros x [->|Hin%Hranks]%elem_of_cons; lia.
    + rewrite Hend. split;
        first [ apply NoDup_singleton | by intros x ->%list_elem_of_singleton ].
Qed.

Lemma initialSimState_runnable props :
  runnable (initialSimState props) /\
  rank (currentScreen (initialSimState props)) <= 4.
Proof.
  unfold runnable, initialSimState, firstOnboardingScreen; cbn.
  destruct (recoveringFromStoreWipe props);
    [destruct (ONBOARDING_FEATURES_ENABLED _)|]; cbn; split; first [left; lia | lia].
Qed.

(** A property that every iteration preserves holds when the loop ends. *)
Lemma whileLoop_invariant (P : SimState -> Prop) screen props :
  (forall st st', P st -> loopBody screen props st = Ok st' -> P st') ->
  forall fuel st st',
    P st -> whileLoop screen props fuel st = Some (Ok st') -> P st'.
Proof.
  intros Hbody. induction fuel as [|fuel IH]; intros st st' HP; cbn [whileLoop];
    destruct (includes END_OF_ONBOARDING_SCREENS (currentScreen st));
    try (by intros [= <-]); try done.
  destruct (loopBody screen props st) as [st1|e] eqn:Hst1; [|done].
  apply IH. by apply (Hbody st).
Qed.

(** *** Termination *)

(** C3.  For every snapshot (and every target screen and configuration of
    the features), the loop of getOnboardingStepValues, which applies the
    decision table repeatedly from firstOnboardingScreen(snapshot), ends on
    a screen of END_OF_ONBOARDING_SCREENS within 6 iterations, without
    throwing; the screens it goes through are pairwise distinct; and
    getOnboardingStepValues returns the two counters. *)
Theorem getOnboardingStepValues_terminates
    (screen : Screens.t) (props : OnboardingProps) (k : nat) :
  exists st,
    whileLoop screen props (6 + k) (initialSimState props) = Some (Ok st) /\
    includes END_OF_ONBOARDING_SCREENS (currentScreen st) = true /\
    NoDup (visitedScreens screen props (6 + k) (initialSimState props)) /\
    getOnboardingStepValues screen props (6 + k) =
      Some (Ok {| totalSteps := totalCounter st; step := stepCounter st |}).
Proof.
  destruct (initialSimState_runnable props) as [Hrun Hrank].
  destruct (whileLoop_terminates screen props (6 + k) _ Hrun) as (st & Hst & Hend);
    [lia|].
  exists st. repeat split; [done | done | | ].
  - by apply visitedScreens_rank.
  - unfold getOnboardingStepValues. by rewrite Hst.
Qed.

(** *** The two counters *)

(** C4.  Whenever the simulation completes, the step it returns is at most
    the total it returns. *)
Theorem step_le_totalSteps
    (screen : Screens.t) (props : OnboardingProps) (fuel : nat) (r : StepValues) :
  getOnboardingStepValues screen props fuel = Some (Ok r) ->
  step r <= totalSteps r.
Proof.
  unfold getOnboardingStepValues.
  destruct (whileLoop _ _ _ _) as [[st|e]|] eqn:Hrun; [|done..].
  intros [= <-]; cbn.
  apply (whileLoop_invariant (fun st => stepCounter st <= totalCounter st)
           screen props) in Hrun; [done| |cbn; lia].
  intros st0 st1 Hle [(d & p & -> & _) | ->]%loopBody_Ok; [|done].
  by apply nextStepAndCount_le.
Qed.

(** If the target is none of the screens the loop goes through, the loop
    ends with the target not reached and the two counters equal. *)
Lemma whileLoop_lockstep screen props fuel st st' :
  reachedStep st = false ->
  stepCounter st = totalCounter st ->
  includes (visitedScreens screen props fuel st) screen = false ->
  whileLoop screen props fuel st = Some (Ok st') ->
  reachedStep st' = false /\ stepCounter st' = totalCounter st'.
Proof.
  revert st. induction fuel as [|fuel IH]; intros st Hreached Heq;
    cbn [visitedScreens whileLoop includes];
    destruct (decide (currentScreen st = screen)) as [|Hne]; try done;
    destruct (includes END_OF_ONBOARDING_SCREENS (currentScreen st));
    try (by intros _ [= <-]); try done.
  destruct (loopBody screen props st) as [st1|e] eqn:Hst1; [|done].
  apply loopBody_Ok in Hst1 as [(d & p & -> & _) | ->].
  - destruct (nextStepAndCount_lockstep screen d p st Hne Hreached Heq).
    by apply IH.
  - by apply IH.
Qed.

(** C10.  For every snapshot and every target screen that is none of the
    screens the simulation goes through, getOnboardingStepValues returns
    normally, with step equal to totalSteps. *)
Theorem unvisited_target_step_eq_totalSteps
    (screen : Screens.t) (props : OnboardingProps) (k : nat) :
  includes (visitedScreens screen props (6 + k) (initialSimState props)) screen = false ->
  exists r,
    getOnboardingStepValues screen props (6 + k) = Some (Ok r) /\
    step r = totalSteps r.
Proof.
  intros Hunvisited.
  destruct (initialSimState_runnable props) as [Hrun Hrank].
  destruct (whileLoop_terminates screen props (6 + k) _ Hrun) as (st & Hst & Hend);
    [lia|].
  unfold getOnboardingStepValues. rewrite Hst.
  eexists; split; [reflexivity|]; cbn.
  by destruct (whileLoop_lockstep screen props (6 + k) (initialSimState props) st
                 eq_refl eq_refl Hunvisited Hst).
Qed.

(** *** Scenario A *)

(** C1.  For the snapshot of scenario A, the transition from PincodeSet
    dispatches initializeAccount and then advances to ProtectWallet (the
    calls received by a mock navigator, and the calls the navigation driver
    makes), and getOnboardingStepValues(ProtectWallet, snapshot) returns
    {step: 2, totalSteps: 3} as soon as the loop is allowed its three
    iterations. *)
Theorem scenarioA_PincodeSet_then_ProtectWallet (restore : bool) (w : World) (k : nat) :
  transitionCalls (scenarioA restore) Screens.PincodeSet =
    Ok [CallDispatch initializeAccount;
        CallNavigate Screens.ProtectWallet None;
        CallDispatch (updateLastOnboardingScreen Screens.ProtectWallet)]
  /\ goToNextOnboardingScreen Screens.PincodeSet (scenarioA restore) w =
       Ok (w ++ [store_dispatch initializeAccount;
                 NavigationService_navigate Screens.ProtectWallet None;
                 store_dispatch (updateLastOnboardingScreen Screens.ProtectWallet)])
  /\ getOnboardingStepValues Screens.ProtectWallet (scenarioA restore) (3 + k) =
       Some (Ok {| totalSteps := 3; step := 2 |}).
Proof.
  split; [reflexivity|]. split.
  - unfold goToNextOnboardingScreen; cbn.
    unfold seq, storeDispatch, wrapNavigate, seq; cbn.
    by rewrite <- !app_assoc.
  - by apply getOnboardingStepValues_more_fuel.
Qed.

(** *** EnableBiometry against PincodeSet *)

(** C2, amended.  For every snapshot, the transition from PincodeSet taken
    with supportedBiometryType set to null makes the calls of the
    transition from EnableBiometry, preceded by popToScreen(Welcome) when
    the user chose to restore an account, and by nothing otherwise. *)
Theorem EnableBiometry_is_PincodeSet_without_pop (props : OnboardingProps) :
  exists calls,
    transitionCalls props Screens.EnableBiometry = Ok calls /\
    transitionCalls (withoutBiometry props) Screens.PincodeSet =
      Ok ((if truthy (choseToRestoreAccount props)
           then [CallPopToScreen Screens.Welcome] else []) ++ calls).
Proof.
  unfold transitionCalls; cbn [_getStepInfo next withoutBiometry notNull
    supportedBiometryType choseToRestoreAccount showCloudAccountBackupSetup
    skipProtectWallet].
  eexists; split; [reflexivity|].
  unfold navigateImportOrImportSelect; cbn [showCloudAccountBackupRestore].
  repeat case_match; cbn in *; first [reflexivity | congruence].
Qed.

(** *** The error of the decision table *)

Lemma whileLoop_no_throw screen props fuel st e :
  runnable st -> whileLoop screen props fuel st <> Some (Throw e).
Proof.
  revert st. induction fuel as [|fuel IH]; intros st Hrun; cbn [whileLoop];
    destruct (includes END_OF_ONBOARDING_SCREENS (currentScreen st)) eqn:Hend;
    try done.
  destruct Hrun as [Hpos | Hend']; [|congruence].
  destruct (loopBody_runnable screen props st Hpos) as (st' & -> & Hrun' & _).
  by apply IH.
Qed.

(** C5.  _getStepInfo returns a step for each of the eight handled screens,
    whatever the snapshot, and throws the error "No step info found for
    ..." for every other screen; goToNextOnboardingScreen does the same;
    and getOnboardingStepValues never throws. *)
Theorem getStepInfo_throws_iff_unhandled
    {State : Type} (navigator : NavigatorFunctions State) (dispatch : Action -> Cmd State)
    (props : OnboardingProps) (s : Screens.t) :
  let unhandledScreen :=
    {| message :=
      ("No step info found for " +:+ screenValue s +:+
       ". this step needs to be handled in _getStepInfo")%string |} in
  (if includes handledScreens s
   then exists stepInfo, _getStepInfo navigator dispatch props s = Ok stepInfo
   else _getStepInfo navigator dispatch props s = Throw unhandledScreen) /\
  (forall w,
     if includes handledScreens s
     then exists w', goToNextOnboardingScreen s props w = Ok w'
     else goToNextOnboardingScreen s props w = Throw unhandledScreen) /\
  (forall screen fuel e,
     getOnboardingStepValues screen props fuel <> Some (Throw e)).
Proof.
  intros unhandledScreen. split; [|split].
  - destruct s; cbn; first [reflexivity | by eexists].
  - intros w. destruct s; cbn; first [reflexivity | by eexists].
  - intros screen fuel e. unfold getOnboardingStepValues.
    pose proof (whileLoop_no_throw screen props fuel (initialSimState props))
      as Hno.
    destruct (whileLoop _ _ _ _) as [[st|e']|]; try done.
    intros [= ->]. by apply (Hno e); [apply initialSimState_runnable|].
Qed.

(** *** The navigation driver *)

Lemma driver_runCalls calls w :
  runCalls NavigationService storeDispatch calls w = w ++ flat_map driverEvents calls.
Proof.
  revert w. induction calls as [|c calls IH]; intros w.
  - by rewrite app_nil_r.
  - change (c :: calls) with ([c] ++ calls).
    rewrite runCalls_app, IH, flat_map_app, app_assoc. f_equal.
    destruct c; cbn; unfold seq; by rewrite <- ?app_assoc, ?app_nil_r.
Qed.

Lemma goToNextOnboardingScreen_runCalls s props w :
  goToNextOnboardingScreen s props w =
  match transitionCalls props s with
  | Ok calls => Ok (w ++ flat_map driverEvents calls)
  | Throw e => Throw e
  end.
Proof.
  unfold goToNextOnboardingScreen.
  pose proof (getStepInfo_runCalls NavigationService storeDispatch props s) as Hrun.
  destruct (transitionCalls props s) as [calls|e].
  - destruct Hrun as (stepInfo & -> & Hnext). by rewrite Hnext, driver_runCalls.
  - by rewrite Hrun.
Qed.

(** C6.  The finishOnboarding of the navigation driver dispatches
    onboardingCompleted, then updateLastOnboardingScreen(screen), then
    updateStatsigAndNavigate(screen), and nothing else.  A transition of
    the driver pops to Welcome or dispatches initializeAccount at most, and
    then either navigates to a screen that does not end the onboarding and
    dispatches updateLastOnboardingScreen of that screen, or finishes with
    the three dispatches. *)
Theorem driver_finish_and_advance :
  (forall screen w,
     finishOnboarding NavigationService screen w =
       w ++ [store_dispatch onboardingCompleted;
             store_dispatch (updateLastOnboardingScreen screen);
             store_dispatch (updateStatsigAndNavigate screen)]) /\
  (forall s props w w',
     goToNextOnboardingScreen s props w = Ok w' ->
     exists pre,
       Forall (fun e => e = NavigationService_popToScreen Screens.Welcome \/
                        e = store_dispatch initializeAccount) pre /\
       ((exists d p,
           includes END_OF_ONBOARDING_SCREENS d = false /\
           w' = w ++ pre ++
                [NavigationService_navigate d p;
                 store_dispatch (updateLastOnboardingScreen d)]) \/
        (exists f,
           w' = w ++ pre ++
                [store_dispatch onboardingCompleted;
                 store_dispatch (updateLastOnboardingScreen f);
                 store_dispatch (updateStatsigAndNavigate f)]))).
Proof.
  split.
  - intros screen w. cbn. unfold seq. by rewrite <- !app_assoc.
  - intros s props w w'. rewrite goToNextOnboardingScreen_runCalls.
    destruct (includes handledScreens s) eqn:Hs.
    + destruct (transitionCalls_handled props s Hs)
        as (pre & Hpre & [(d & p & -> & Hrank) | ->]);
        intros [= <-]; exists (flat_map driverEvents pre);
        (split; [clear -Hpre; induction Hpre as [|c pre [] _ IH]; cbn; auto|]);
        rewrite flat_map_app; cbn.
      * left. exists d, p. split; [apply rank_pos_not_end; lia | done].
      * right. by exists Screens.ChooseYourAdventure.
    + by rewrite (transitionCalls_unhandled _ _ Hs).
Qed.

(** *** LinkPhoneNumber and VerificationStartScreen *)

(** C7.  For every snapshot, the step of LinkPhoneNumber and the step of
    VerificationStartScreen are a single call,
    finishOnboarding(ChooseYourAdventure): no call of navigate and no
    dispatch, of initializeAccount in particular.  In the navigation
    driver the call comes to the three dispatches of its finishOnboarding. *)
Theorem verification_screens_finish (props : OnboardingProps) (s : Screens.t) :
  s ∈ [Screens.LinkPhoneNumber; Screens.VerificationStartScreen] ->
  (forall (State : Type) (navigator : NavigatorFunctions State) dispatch,
     _getStepInfo navigator dispatch props s =
       Ok {| next := finishOnboarding navigator Screens.ChooseYourAdventure |}) /\
  transitionCalls props s = Ok [CallFinishOnboarding Screens.ChooseYourAdventure] /\
  (forall w,
     goToNextOnboardingScreen s props w =
       Ok (w ++ [store_dispatch onboardingCompleted;
                 store_dispatch (updateLastOnboardingScreen Screens.ChooseYourAdventure);
                 store_dispatch (updateStatsigAndNavigate Screens.ChooseYourAdventure)])).
Proof.
  intros Hs. rewrite elem_of_cons, list_elem_of_singleton in Hs.
  destruct Hs as [-> | ->]; (split; [done|]; split; [done|]);
    intros w; by rewrite goToNextOnboardingScreen_runCalls.
Qed.

(** *** The snapshots of onboardingPropsSelector *)

(** C8.  In every snapshot that onboardingPropsSelector returns,
    showCloudAccountBackupSetup implies showCloudAccountBackupRestore,
    which is the CloudBackup feature flag. *)
Theorem selector_setup_implies_restore
    (recovering : bool) (choseToRestore : option bool)
    (biometry : option BIOMETRY_TYPE.t) (verified : bool) :
  let props := onboardingPropsSelector recovering choseToRestore biometry verified in
  showCloudAccountBackupSetup props = true ->
  showCloudAccountBackupRestore props = true /\
  ONBOARDING_FEATURES_ENABLED ToggleableOnboardingFeatures.CloudBackup = true.
Proof.
  cbn. by intros [-> _]%andb_true_iff.
Qed.

Lemma loopBody_without_biometry screen props st st' :
  supportedBiometryType props = None ->
  loopBody screen props st = Ok st' ->
  currentScreen st' <> Screens.EnableBiometry.
Proof.
  intros Hnone Hbody. rewrite loopBody_runCalls in Hbody.
  destruct st as [sc tc rs cur].
  destruct cur; unfold transitionCalls in Hbody;
    cbn [_getStepInfo next currentScreen] in Hbody; try discriminate Hbody;
    rewrite ?Hnone in Hbody; unfold navigateImportOrImportSelect in Hbody;
    cbn [notNull] in Hbody;
    repeat case_match; injection Hbody as <-; discriminate.
Qed.

Lemma visitedScreens_without_biometry screen props fuel st :
  supportedBiometryType props = None ->
  currentScreen st <> Screens.EnableBiometry ->
  Screens.EnableBiometry ∉ visitedScreens screen props fuel st.
Proof.
  intros Hnone. revert st.
  induction fuel as [|fuel IH]; intros st Hcur; cbn [visitedScreens];
    apply not_elem_of_cons; (split; [done|]);
    destruct (includes END_OF_ONBOARDING_SCREENS (currentScreen st));
    try apply not_elem_of_nil.
  destruct (loopBody screen props st) as [st'|e] eqn:Hbody;
    [|apply not_elem_of_nil].
  apply IH. by apply (loopBody_without_biometry screen props st).
Qed.

(** C9.  When the EnableBiometry feature is disabled, every snapshot that
    onboardingPropsSelector returns has supportedBiometryType null; with
    such a snapshot no transition of the table makes a call that leads to
    the EnableBiometry screen, and the screens that the simulation goes
    through from firstOnboardingScreen never include EnableBiometry. *)
Theorem EnableBiometry_disabled_unreachable
    (recovering : bool) (choseToRestore : option bool)
    (biometry : option BIOMETRY_TYPE.t) (verified : bool) :
  ONBOARDING_FEATURES_ENABLED ToggleableOnboardingFeatures.EnableBiometry = false ->
  let props := onboardingPropsSelector recovering choseToRestore biometry verified in
  supportedBiometryType props = None /\
  (forall s calls,
     transitionCalls props s = Ok calls ->
     existsb (leadsTo Screens.EnableBiometry) calls = false) /\
  (forall screen fuel,
     Screens.EnableBiometry ∉
       visitedScreens screen props fuel (initialSimState props)).
Proof.
  intros Hoff props.
  assert (Hnone : supportedBiometryType props = None)
    by (subst props; cbn; by rewrite Hoff).
  split; [done|]. split.
  - intros s calls. unfold transitionCalls.
    destruct s; cbn [_getStepInfo next]; try discriminate;
      rewrite ?Hnone; unfold navigateImportOrImportSelect; cbn [notNull];
      repeat case_match; by intros [= <-].
  - intros screen fuel. apply visitedScreens_without_biometry; [done|].
    unfold initialSimState, firstOnboardingScreen; cbn [currentScreen].
    by repeat case_match.
Qed.

(** *** What the two counters count *)

Lemma visitedScreens_end screen props fuel st :
  includes END_OF_ONBOARDING_SCREENS (currentScreen st) = true ->
  visitedScreens screen props fuel st = [currentScreen st].
Proof. intros Hend. destruct fuel; cbn [visitedScreens]; by rewrite Hend. Qed.

(** The effect of the dummy navigation function when the next screen does
    not end the onboarding. *)
Lemma nextStepAndCount_counts screen d p st :
  includes END_OF_ONBOARDING_SCREENS d = false ->
  totalCounter (nextStepAndCount screen d p st) = S (totalCounter st) /\
  (reachedStep st = true ->
     reachedStep (nextStepAndCount screen d p st) = true /\
     stepCounter (nextStepAndCount screen d p st) = stepCounter st) /\
  (reachedStep st = false -> currentScreen st = screen ->
     reachedStep (nextStepAndCount screen d p st) = true /\
     stepCounter (nextStepAndCount screen d p st) = stepCounter st) /\
  (reachedStep st = false -> currentScreen st <> screen ->
     reachedStep (nextStepAndCount screen d p st) = false /\
     stepCounter (nextStepAndCount screen d p st) = S (stepCounter st)).
Proof.
  intros Hd. unfold nextStepAndCount. rewrite Hd. cbn.
  destruct (decide (currentScreen st = screen)) as [Heq|Hne]; cbn;
    repeat split; intros; try done.
  - by destruct (reachedStep st).
  - by destruct (reachedStep st).
  - by destruct (reachedStep st).
  - destruct (reachedStep st); [done | by cbn].
  - destruct (reachedStep st); [done | by cbn].
Qed.

(** The loop, from any state it can run from: the screens it goes through
    are the screens of the flow followed by the screen that ends the
    onboarding; totalCounter grows by the number of flow screens after the
    current one, and stepCounter by the number of flow screens before the
    target. *)
Lemma whileLoop_counts screen props fuel st st' :
  0 < rank (currentScreen st) ->
  whileLoop screen props fuel st = Some (Ok st') ->
  exists flow,
    visitedScreens screen props fuel st = flow ++ [Screens.ChooseYourAdventure] /\
    Forall (fun s => 0 < rank s) flow /\
    length flow <= rank (currentScreen st) /\
    currentScreen st' = Screens.ChooseYourAdventure /\
    S (totalCounter st') = totalCounter st + length flow /\
    (reachedStep st = true -> stepCounter st' = stepCounter st) /\
    (reachedStep st = false ->
       forall j, flow !! j = Some screen -> stepCounter st' = stepCounter st + j) /\
    (reachedStep st = false -> screen ∉ flow ->
       S (stepCounter st') = stepCounter st + length flow).
Proof.
  revert st. induction fuel as [|fuel IH]; intros st Hpos; cbn [whileLoop];
    rewrite (rank_pos_not_end _ Hpos); [done|].
  destruct (loopBody screen props st) as [st1|e] eqn:Hst1; [|done].
  intros Hrun. cbn [visitedScreens].
  rewrite (rank_pos_not_end _ Hpos), Hst1.
  apply loopBody_Ok in Hst1 as [(d & p & -> & Hd0 & Hd) | ->].
  - pose proof (rank_pos_not_end _ Hd0) as Hdend.
    destruct (nextStepAndCount_counts screen d p st Hdend)
      as (Htotal & Hreached & Hat & Hbefore).
    destruct (IH (nextStepAndCount screen d p st))
      as (flow & Hvisited & Hranks & Hlen & Hfinal & Htotal' & Hstay & Hpos' & Hout);
      [by rewrite currentScreen_nextStepAndCount | done |].
    rewrite currentScreen_nextStepAndCount in Hlen.
    assert (Hsmaller : forall x, x ∈ flow -> rank x < rank (currentScreen st)).
    { intros x Hx.
      destruct (visitedScreens_rank screen props fuel
                  (nextStepAndCount screen d p st)) as [_ Hle];
        [left; by rewrite currentScreen_nextStepAndCount|].
      specialize (Hle x). rewrite Hvisited, currentScreen_nextStepAndCount in Hle.
      assert (rank x <= rank d) by (apply Hle, elem_of_app; by left). lia. }
    exists (currentScreen st :: flow). rewrite Hvisited.
    split; [done|]. split; [by constructor|]. split; [cbn; lia|].
    split; [done|]. split; [cbn; lia|]. split; [|split].
    + intros Hr. destruct (Hreached Hr) as [Hr1 Hs1]. by rewrite Hstay.
    + intros Hr [|j] Hj; cbn in Hj.
      * injection Hj as Hcur.
        destruct (Hat Hr Hcur) as [Hr1 Hs1]. rewrite Hstay; [lia | done].
      * destruct (decide (currentScreen st = screen)) as [Hcur|Hcur].
        -- apply list_elem_of_lookup_2, Hsmaller in Hj. rewrite Hcur in Hj. lia.
        -- destruct (Hbefore Hr Hcur) as [Hr1 Hs1].
           rewrite (Hpos' Hr1 j Hj). lia.
    + intros Hr Hnotin. apply not_elem_of_cons in Hnotin as [Hcur Hnotin].
      destruct (Hbefore Hr (not_eq_sym Hcur)) as [Hr1 Hs1].
      specialize (Hout Hr1 Hnotin). cbn. lia.
  - rewrite whileLoop_end in Hrun by done. injection Hrun as <-.
    rewrite visitedScreens_end by done.
    exists [currentScreen st]. cbn.
    split; [done|]. split; [by repeat constructor|]. split; [lia|].
    split; [done|]. split; [lia|]. split; [done|]. split; [|intros; lia].
    intros _ [|j] Hj; cbn in Hj; [lia | done].
Qed.

Lemma initialSimState_rank_pos props :
  0 < rank (currentScreen (initialSimState props)).
Proof.
  unfold initialSimState, firstOnboardingScreen; cbn.
  repeat case_match; cbn; lia.
Qed.

(** X1.  The screens the simulation goes through are the screens of the
    flow, none of which ends the onboarding, followed by
    ChooseYourAdventure; four iterations are always enough, and totalSteps
    is the number of screens of the flow. *)
Theorem totalSteps_is_flow_length
    (screen : Screens.t) (props : OnboardingProps) (k : nat) :
  exists flow r,
    visitedScreens screen props (4 + k) (initialSimState props) =
      flow ++ [Screens.ChooseYourAdventure] /\
    Forall (fun s => includes END_OF_ONBOARDING_SCREENS s = false) flow /\
    getOnboardingStepValues screen props (4 + k) = Some (Ok r) /\
    totalSteps r = length flow.
Proof.
  destruct (initialSimState_runnable props) as [Hrun Hrank].
  destruct (whileLoop_terminates screen props (4 + k) _ Hrun) as (st & Hst & Hend);
    [lia|].
  destruct (whileLoop_counts screen props (4 + k) _ st
              (initialSimState_rank_pos props) Hst)
    as (flow & Hvisited & Hranks & _ & _ & Htotal & _).
  exists flow. eexists. split; [done|]. split.
  - eapply Forall_impl; [exact Hranks|]. intros s. apply rank_pos_not_end.
  - unfold getOnboardingStepValues. rewrite Hst. split; [reflexivity|].
    cbn in *. lia.
Qed.

(** X2.  When the target is the screen the simulation goes through at
    position j, counting from 0, and does not end the onboarding, step is
    j + 1: the first screen of the flow is step 1. *)
Theorem step_is_position_in_flow
    (screen : Screens.t) (props : OnboardingProps) (k j : nat) :
  visitedScreens screen props (4 + k) (initialSimState props) !! j = Some screen ->
  includes END_OF_ONBOARDING_SCREENS screen = false ->
  exists r,
    getOnboardingStepValues screen props (4 + k) = Some (Ok r) /\
    step r = S j.
Proof.
  intros Hj Hflow.
  destruct (initialSimState_runnable props) as [Hrun Hrank].
  destruct (whileLoop_terminates screen props (4 + k) _ Hrun) as (st & Hst & Hend);
    [lia|].
  destruct (whileLoop_counts screen props (4 + k) _ st
              (initialSimState_rank_pos props) Hst)
    as (flow & Hvisited & _ & _ & _ & _ & _ & Hpos & _).
  unfold getOnboardingStepValues. rewrite Hst.
  eexists; split; [reflexivity|]. cbn.
  rewrite Hvisited in Hj.
  apply lookup_app_Some in Hj as [Hj | [_ Hlast]].
  - by rewrite (Hpos eq_refl j Hj).
  - apply list_lookup_singleton_Some in Hlast as [_ <-]. done.
Qed.

(** X3.  For every snapshot and every target, getOnboardingStepValues
    returns within four iterations of its loop, with
    1 <= step <= totalSteps <= 4. *)
Theorem step_values_bounds
    (screen : Screens.t) (props : OnboardingProps) (k : nat) :
  exists r,
    getOnboardingStepValues screen props (4 + k) = Some (Ok r) /\
    1 <= step r /\ step r <= totalSteps r /\ totalSteps r <= 4.
Proof.
  destruct (initialSimState_runnable props) as [Hrun Hrank].
  destruct (whileLoop_terminates screen props (4 + k) _ Hrun) as (st & Hst & Hend);
    [lia|].
  assert (Hr : getOnboardingStepValues screen props (4 + k) =
               Some (Ok {| totalSteps := totalCounter st; step := stepCounter st |}))
    by (unfold getOnboardingStepValues; by rewrite Hst).
  eexists; split; [exact Hr|]. cbn. split; [|split].
  - apply (whileLoop_invariant (fun st => 1 <= stepCounter st) screen props)
      in Hst; [done| |cbn; lia].
    intros st0 st1 Hle [(d & p & -> & _) | ->]%loopBody_Ok; [|done].
    unfold nextStepAndCount. repeat case_match; cbn in *; lia.
  - apply (whileLoop_invariant (fun st => stepCounter st <= totalCounter st)
             screen props) in Hst; [done| |cbn; lia].
    intros st0 st1 Hle [(d & p & -> & _) | ->]%loopBody_Ok; [|done].
    by apply nextStepAndCount_le.
  - destruct (whileLoop_counts screen props (4 + k) _ st
                (initialSimState_rank_pos props) Hst)
      as (flow & _ & _ & Hlen & _ & Htotal & _).
    cbn in Htotal. lia.
Qed.

(** *** What a transition never does *)

Lemma driver_events_handled s props w w' :
  goToNextOnboardingScreen s props w = Ok w' ->
  exists pre,
    Forall isPreparation pre /\
    ((exists d p,
        0 < rank d < rank s /\
        transitionCalls props s =
          Ok (pre ++ [CallNavigate d p; CallDispatch (updateLastOnboardingScreen d)]) /\
        w' = w ++ flat_map driverEvents pre ++
             [NavigationService_navigate d p;
              store_dispatch (updateLastOnboardingScreen d)]) \/
     (transitionCalls props s =
        Ok (pre ++ [CallFinishOnboarding Screens.ChooseYourAdventure]) /\
      w' = w ++ flat_map driverEvents pre ++
           [store_dispatch onboardingCompleted;
            store_dispatch (updateLastOnboardingScreen Screens.ChooseYourAdventure);
            store_dispatch (updateStatsigAndNavigate Screens.ChooseYourAdventure)])).
Proof.
  rewrite goToNextOnboardingScreen_runCalls.
  destruct (includes handledScreens s) eqn:Hs.
  - destruct (transitionCalls_handled props s Hs)
      as (pre & Hpre & [(d & p & Hcalls & Hrank) | Hcalls]);
      rewrite Hcalls; intros [= <-]; exists pre; (split; [done|]);
      rewrite flat_map_app; cbn.
    + left. by exists d, p.
    + by right.
  - by rewrite (transitionCalls_unhandled _ _ Hs).
Qed.

Lemma preparation_events pre e :
  Forall isPreparation pre ->
  e ∈ flat_map driverEvents pre ->
  e = NavigationService_popToScreen Screens.Welcome \/
  e = store_dispatch initializeAccount.
Proof.
  induction 1 as [|c pre [] _ IH]; cbn.
  - by intros ?%elem_of_nil.
  - intros [->|?]%elem_of_cons; [by left | by apply IH].
  - intros [->|?]%elem_of_cons; [by right | by apply IH].
Qed.

(** X4.  No transition of the navigation driver calls
    NavigationService.navigateClearingStack, whatever the screen and the
    snapshot. *)
Theorem driver_never_clears_stack
    (s : Screens.t) (props : OnboardingProps) (w w' : World) :
  goToNextOnboardingScreen s props w = Ok w' ->
  exists evs,
    w' = w ++ evs /\
    forall d p, NavigationService_navigateClearingStack d p ∉ evs.
Proof.
  intros (pre & Hpre & [(d & p & _ & _ & ->) | [_ ->]])%driver_events_handled;
    eexists; (split; [reflexivity|]); intros d' p';
    rewrite elem_of_app, !elem_of_cons, elem_of_nil;
    (intros [[?|?]%(preparation_events _ _ Hpre) | Htail]; [done..|]);
    repeat (destruct Htail as [Htail|Htail]; [discriminate Htail|]);
    destruct Htail.
Qed.

(** X5.  A transition dispatches initializeAccount exactly when the user
    did not choose to restore an account and the screen is EnableBiometry,
    or PincodeSet with no biometry: the transition that leaves the pincode
    and biometry screens of a new account. *)
Theorem initializeAccount_dispatched_iff
    (props : OnboardingProps) (s : Screens.t) (calls : list Call) :
  transitionCalls props s = Ok calls ->
  CallDispatch initializeAccount ∈ calls <->
  truthy (choseToRestoreAccount props) = false /\
  (s = Screens.EnableBiometry \/
   (s = Screens.PincodeSet /\ supportedBiometryType props = None)).
Proof.
  unfold transitionCalls.
  destruct s; cbn [_getStepInfo next]; try discriminate;
    unfold navigateImportOrImportSelect;
    destruct (supportedBiometryType props); cbn [notNull];
    repeat case_match; intros [= <-]; cbn;
    rewrite ?elem_of_cons, ?elem_of_nil; intuition congruence.
Qed.

(** *** Screens that a snapshot leaves out of the flow *)

(** Reads off the screen the step counter moves to, in every case of the
    table, using the equations at hand on the fields of the snapshot. *)
Ltac next_screen_cases st Hbody :=
  rewrite loopBody_runCalls in Hbody;
  destruct st as [? ? ? cur]; cbn [currentScreen] in *;
  destruct cur; unfold transitionCalls in Hbody;
  cbn [_getStepInfo next] in Hbody; try discriminate;
  unfold navigateImportOrImportSelect in Hbody;
  repeat match goal with
         | H : _ = _ |- _ =>
             tryif constr_eq H Hbody then fail else rewrite H in Hbody
         end;
  rewrite ?orb_true_r in Hbody;
  cbn [orb notNull truthy] in Hbody;
  repeat case_match; injection Hbody as <-; cbn.

(** A set of screens that the iterations do not leave contains every
    visited screen. *)
Lemma visitedScreens_within (Q : Screens.t -> Prop) screen props :
  (forall st st',
     Q (currentScreen st) -> loopBody screen props st = Ok st' ->
     Q (currentScreen st')) ->
  forall fuel st,
    Q (currentScreen st) ->
    Forall Q (visitedScreens screen props fuel st).
Proof.
  intros Hbody. induction fuel as [|fuel IH]; intros st Hst; cbn [visitedScreens];
    (constructor; [done|]);
    destruct (includes END_OF_ONBOARDING_SCREENS (currentScreen st)); try constructor.
  destruct (loopBody screen props st) as [st'|e] eqn:Hst'; [|constructor].
  apply IH. by apply (Hbody st).
Qed.

(** X6.  With skipVerification set, the simulation never goes through
    LinkPhoneNumber or VerificationStartScreen. *)
Theorem skipVerification_skips_verification_screens
    (screen : Screens.t) (props : OnboardingProps) (fuel : nat) :
  skipVerification props = true ->
  (Screens.LinkPhoneNumber ∉
     visitedScreens screen props fuel (initialSimState props)) /\
  (Screens.VerificationStartScreen ∉
     visitedScreens screen props fuel (initialSimState props)).
Proof.
  intros Hskip.
  assert (Hall : Forall
    (fun s => s <> Screens.LinkPhoneNumber /\ s <> Screens.VerificationStartScreen)
    (visitedScreens screen props fuel (initialSimState props))).
  { apply visitedScreens_within.
    - intros st st' _ Hbody. by next_screen_cases st Hbody.
    - unfold initialSimState, firstOnboardingScreen; cbn.
      by repeat case_match. }
  rewrite Forall_forall in Hall.
  split; intros Hin; by destruct (Hall _ Hin).
Qed.

(** X7.  With skipProtectWallet set, the simulation never goes through
    ProtectWallet. *)
Theorem skipProtectWallet_skips_ProtectWallet
    (screen : Screens.t) (props : OnboardingProps) (fuel : nat) :
  skipProtectWallet props = true ->
  Screens.ProtectWallet ∉ visitedScreens screen props fuel (initialSimState props).
Proof.
  intros Hskip.
  assert (Hall : Forall (fun s => s <> Screens.ProtectWallet)
    (visitedScreens screen props fuel (initialSimState props))).
  { apply visitedScreens_within.
    - intros st st' _ Hbody. by next_screen_cases st Hbody.
    - unfold initialSimState, firstOnboardingScreen; cbn.
      by repeat case_match. }
  rewrite Forall_forall in Hall.
  intros Hin; by apply (Hall _ Hin).
Qed.

(** X8.  When the CloudBackup feature is disabled, the simulation on a
    snapshot of onboardingPropsSelector never goes through ImportSelect or
    SignInWithEmail. *)
Theorem CloudBackup_disabled_skips_cloud_screens
    (recovering : bool) (choseToRestore : option bool)
    (biometry : option BIOMETRY_TYPE.t) (verified : bool)
    (screen : Screens.t) (fuel : nat) :
  ONBOARDING_FEATURES_ENABLED ToggleableOnboardingFeatures.CloudBackup = false ->
  let props := onboardingPropsSelector recovering choseToRestore biometry verified in
  (Screens.ImportSelect ∉
     visitedScreens screen props fuel (initialSimState props)) /\
  (Screens.SignInWithEmail ∉
     visitedScreens screen props fuel (initialSimState props)).
Proof.
  intros Hoff props.
  assert (Hrestore : showCloudAccountBackupRestore props = false) by done.
  assert (Hsetup : showCloudAccountBackupSetup props = false)
    by (subst props; cbn; by rewrite Hoff).
  assert (Hfirst : currentScreen (initialSimState props) <> Screens.ImportSelect /\
                   currentScreen (initialSimState props) <> Screens.SignInWithEmail).
  { unfold initialSimState, firstOnboardingScreen; cbn. rewrite Hoff.
    by repeat case_match. }
  clearbody props. clear Hoff.
  assert (Hall : Forall
    (fun s => s <> Screens.ImportSelect /\ s <> Screens.SignInWithEmail)
    (visitedScreens screen props fuel (initialSimState props))).
  { apply visitedScreens_within; [|done].
    intros st st' _ Hbody. clear Hfirst. by next_screen_cases st Hbody. }
  rewrite Forall_forall in Hall.
  split; intros Hin; by destruct (Hall _ Hin).
Qed.

(** X9.  When recovering from a store wipe, the flow has at most two
    screens: an import screen, followed by a verification screen or by
    nothing; two iterations of the loop are enough. *)
Theorem recovering_flow_is_short
    (screen : Screens.t) (props : OnboardingProps) (k : nat) :
  recoveringFromStoreWipe props = true ->
  exists r,
    getOnboardingStepValues screen props (2 + k) = Some (Ok r) /\
    totalSteps r <= 2 /\
    Forall (fun s => s ∈ [Screens.ImportSelect; Screens.ImportWallet;
                          Screens.LinkPhoneNumber; Screens.VerificationStartScreen;
                          Screens.ChooseYourAdventure])
      (visitedScreens screen props (2 + k) (initialSimState props)).
Proof.
  intros Hrec.
  set (recoveryScreens :=
         [Screens.ImportSelect; Screens.ImportWallet; Screens.LinkPhoneNumber;
          Screens.VerificationStartScreen; Screens.ChooseYourAdventure]).
  assert (Hfirst : currentScreen (initialSimState props) = Screens.ImportSelect \/
                   currentScreen (initialSimState props) = Screens.ImportWallet).
  { unfold initialSimState, firstOnboardingScreen; cbn. rewrite Hrec.
    destruct (ONBOARDING_FEATURES_ENABLED _); auto. }
  assert (Hrank : rank (currentScreen (initialSimState props)) = 2)
    by (destruct Hfirst as [-> | ->]; done).
  destruct (whileLoop_terminates screen props (2 + k) (initialSimState props))
    as (st & Hst & Hend); [left; lia | lia |].
  destruct (whileLoop_counts screen props (2 + k) _ st
              (initialSimState_rank_pos props) Hst)
    as (flow & _ & _ & Hlen & _ & Htotal & _).
  exists {| totalSteps := totalCounter st; step := stepCounter st |}.
  split; [unfold getOnboardingStepValues; by rewrite Hst|].
  split; [cbn in *; lia|].
  eapply Forall_impl;
    [apply (visitedScreens_within (fun s => includes recoveryScreens s = true)) |
     intros s; apply includes_true].
  - clear. intros st st' Hcur Hbody.
    next_screen_cases st Hbody; first [done | discriminate Hcur].
  - by destruct Hfirst as [-> | ->].
Qed.

(** *** The step counter against the navigation driver *)

Lemma updatedLastScreens_app evs1 evs2 :
  updatedLastScreens (evs1 ++ evs2) =
  updatedLastScreens evs1 ++ updatedLastScreens evs2.
Proof.
  induction evs1 as [|e evs1 IH]; [done|].
  destruct e as [| | |[]]; cbn; by rewrite ?IH.
Qed.

Lemma updatedLastScreens_preparation pre :
  Forall isPreparation pre ->
  updatedLastScreens (flat_map driverEvents pre) = [].
Proof. induction 1 as [|c pre [] _ IH]; by cbn. Qed.

(** X10.  From the same screen and snapshot, the navigation driver records
    as the last onboarding screen exactly the screen the step counter moves
    to, once.  When that screen ends the onboarding the driver triggers
    updateStatsigAndNavigate for it and does not navigate; otherwise it
    navigates to it and does not complete the onboarding. *)
Theorem driver_follows_step_counter
    (screen : Screens.t) (props : OnboardingProps) (st st' : SimState) (w w' : World) :
  loopBody screen props st = Ok st' ->
  goToNextOnboardingScreen (currentScreen st) props w = Ok w' ->
  exists evs,
    w' = w ++ evs /\
    updatedLastScreens evs = [currentScreen st'] /\
    if includes END_OF_ONBOARDING_SCREENS (currentScreen st')
    then store_dispatch (updateStatsigAndNavigate (currentScreen st')) ∈ evs /\
         (forall d p, NavigationService_navigate d p ∉ evs)
    else (exists p, NavigationService_navigate (currentScreen st') p ∈ evs) /\
         store_dispatch onboardingCompleted ∉ evs.
Proof.
  intros Hsim (pre & Hpre & [(d & p & Hrank & Hcalls & ->) | [Hcalls ->]])%driver_events_handled;
    rewrite loopBody_runCalls, Hcalls, runCalls_app, (sim_preparation _ _ _ Hpre) in Hsim;
    injection Hsim as <-; eexists; (split; [reflexivity|]);
    rewrite updatedLastScreens_app, (updatedLastScreens_preparation _ Hpre);
    (split; [reflexivity|]).
  - change (currentScreen _) with d. rewrite rank_pos_not_end by lia. split.
    + exists p. apply elem_of_app. right. by left.
    + rewrite elem_of_app, !elem_of_cons, elem_of_nil.
      intros [[?|?]%(preparation_events _ _ Hpre) | Htail]; [done..|].
      repeat (destruct Htail as [Htail|Htail]; [discriminate Htail|]).
      destruct Htail.
  - cbn. split.
    + apply elem_of_app. right. do 2 right. by left.
    + intros d p. rewrite elem_of_app, !elem_of_cons, elem_of_nil.
      intros [[?|?]%(preparation_events _ _ Hpre) | Htail]; [done..|].
      repeat (destruct Htail as [Htail|Htail]; [discriminate Htail|]).
      destruct Htail.
Qed.

(** *** The flow does not depend on the target screen *)

(** Two runs of the step counter, for two targets, that are on the same
    screen stay on the same screen after the same calls. *)
Lemma runCalls_same_screen screen1 screen2 calls st1 st2 :
  currentScreen st1 = currentScreen st2 ->
  currentScreen (runCalls (simNavigator screen1) simDispatch calls st1) =
  currentScreen (runCalls (simNavigator screen2) simDispatch calls st2).
Proof.
  revert st1 st2. induction calls as [|c calls IH]; intros st1 st2 Hcur; [done|].
  change (c :: calls) with ([c] ++ calls). rewrite !runCalls_app.
  apply IH. by destruct c.
Qed.

Lemma visitedScreens_same_flow screen1 screen2 props fuel st1 st2 :
  currentScreen st1 = currentScreen st2 ->
  visitedScreens screen1 props fuel st1 = visitedScreens screen2 props fuel st2.
Proof.
  revert st1 st2. induction fuel as [|fuel IH]; intros st1 st2 Hcur;
    cbn [visitedScreens]; rewrite Hcur; [done|]. f_equal.
  destruct (includes END_OF_ONBOARDING_SCREENS (currentScreen st2)); [done|].
  rewrite !loopBody_runCalls, Hcur.
  destruct (transitionCalls props (currentScreen st2)) as [calls|e]; [|done].
  by apply IH, runCalls_same_screen.
Qed.

(** X11.  The screens the simulation goes through and totalSteps are the
    same for every target screen: only step depends on the target. *)
Theorem totalSteps_independent_of_target
    (screen1 screen2 : Screens.t) (props : OnboardingProps) (k : nat) :
  visitedScreens screen1 props (4 + k) (initialSimState props) =
  visitedScreens screen2 props (4 + k) (initialSimState props) /\
  exists r1 r2,
    getOnboardingStepValues screen1 props (4 + k) = Some (Ok r1) /\
    getOnboardingStepValues screen2 props (4 + k) = Some (Ok r2) /\
    totalSteps r1 = totalSteps r2.
Proof.
  pose proof (visitedScreens_same_flow screen1 screen2 props (4 + k)
                (initialSimState props) (initialSimState props) eq_refl) as Hsame.
  split; [done|].
  destruct (initialSimState_runnable props) as [Hrun Hrank].
  destruct (whileLoop_terminates screen1 props (4 + k) _ Hrun) as (st1 & Hst1 & _);
    [lia|].
  destruct (whileLoop_terminates screen2 props (4 + k) _ Hrun) as (st2 & Hst2 & _);
    [lia|].
  destruct (whileLoop_counts screen1 props (4 + k) _ st1
              (initialSimState_rank_pos props) Hst1)
    as (flow1 & Hflow1 & _ & _ & _ & Htotal1 & _).
  destruct (whileLoop_counts screen2 props (4 + k) _ st2
              (initialSimState_rank_pos props) Hst2)
    as (flow2 & Hflow2 & _ & _ & _ & Htotal2 & _).
  rewrite Hflow1, Hflow2 in Hsame. apply app_inv_tail in Hsame as ->.
  unfold getOnboardingStepValues. rewrite Hst1, Hst2.
  eexists _, _. split; [reflexivity|]. split; [reflexivity|]. cbn in *. lia.
Qed.

(** *** Restoring and recovering *)

(** X12.  On a snapshot of onboardingPropsSelector, a user who chose to
    restore an account is sent from PincodeSet (after the pop to Welcome, and
    when there is no biometry) and from EnableBiometry to the screen on which
    a user recovering from a store wipe starts. *)
Theorem restore_goes_to_recovery_start
    (recovering : bool) (choseToRestore : option bool)
    (biometry : option BIOMETRY_TYPE.t) (verified : bool) :
  truthy choseToRestore = true ->
  let props := onboardingPropsSelector recovering choseToRestore biometry verified in
  transitionCalls props Screens.EnableBiometry =
    Ok [CallNavigate (firstOnboardingScreen true) None;
        CallDispatch (updateLastOnboardingScreen (firstOnboardingScreen true))] /\
  (supportedBiometryType props = None ->
   transitionCalls props Screens.PincodeSet =
     Ok [CallPopToScreen Screens.Welcome;
         CallNavigate (firstOnboardingScreen true) None;
         CallDispatch (updateLastOnboardingScreen (firstOnboardingScreen true))]).
Proof.
  intros Hrestore props. unfold transitionCalls, firstOnboardingScreen.
  cbn [_getStepInfo next]. unfold navigateImportOrImportSelect. subst props.
  cbn [onboardingPropsSelector choseToRestoreAccount showCloudAccountBackupRestore].
  rewrite Hrestore. split.
  - by destruct (ONBOARDING_FEATURES_ENABLED ToggleableOnboardingFeatures.CloudBackup).
  - intros ->. cbn [notNull].
    by destruct (ONBOARDING_FEATURES_ENABLED ToggleableOnboardingFeatures.CloudBackup).
Qed.

(** *** A number that is already verified *)

Lemma VerificationStartScreen_after_ProtectWallet screen props fuel st :
  numberAlreadyVerifiedCentrally props = true ->
  currentScreen st <> Screens.VerificationStartScreen ->
  Screens.VerificationStartScreen ∈ visitedScreens screen props fuel st ->
  Screens.ProtectWallet ∈ visitedScreens screen props fuel st.
Proof.
  intros Hverified. revert st.
  induction fuel as [|fuel IH]; intros st Hcur; cbn [visitedScreens];
    destruct (includes END_OF_ONBOARDING_SCREENS (currentScreen st));
    try (by intros [?|?%elem_of_nil]%elem_of_cons).
  destruct (loopBody screen props st) as [st'|e] eqn:Hbody;
    [|by intros [?|?%elem_of_nil]%elem_of_cons].
  intros [?|Hin]%elem_of_cons; [done|].
  destruct (decide (currentScreen st' = Screens.VerificationStartScreen)) as [Hvs|Hvs].
  - apply elem_of_cons. left. clear IH Hin Hcur.
    next_screen_cases st Hbody; first [done | discriminate Hvs].
  - apply elem_of_cons. right. by apply IH.
Qed.

(** X15.  When the number is already verified centrally, the simulation
    never goes through LinkPhoneNumber, and it goes through
    VerificationStartScreen only after ProtectWallet, whose transition does
    not look at numberAlreadyVerifiedCentrally. *)
Theorem verified_centrally_verifies_only_after_ProtectWallet
    (screen : Screens.t) (props : OnboardingProps) (fuel : nat) :
  numberAlreadyVerifiedCentrally props = true ->
  (Screens.LinkPhoneNumber ∉
     visitedScreens screen props fuel (initialSimState props)) /\
  (Screens.VerificationStartScreen ∈
     visitedScreens screen props fuel (initialSimState props) ->
   Screens.ProtectWallet ∈
     visitedScreens screen props fuel (initialSimState props)).
Proof.
  intros Hverified. split.
  - assert (Hall : Forall (fun s => s <> Screens.LinkPhoneNumber)
      (visitedScreens screen props fuel (initialSimState props))).
    { apply visitedScreens_within.
      - intros st st' _ Hbody. by next_screen_cases st Hbody.
      - unfold initialSimState, firstOnboardingScreen; cbn.
        by repeat case_match. }
    rewrite Forall_forall in Hall.
    intros Hin; by apply (Hall _ Hin).
  - apply VerificationStartScreen_after_ProtectWallet; [done|].
    unfold initialSimState, firstOnboardingScreen; cbn.
    by repeat case_match.
Qed.

End Steps.

(** ** Properties of the send confirmation screen *)

Section SendConfirmationProperties.
Context `{SendConfirmation.Collaborators}.

(** X13.  Resolving a recipient twice, with the same address book, is the
    same as resolving it once; the phone number and the other fields of the
    recipient are never changed, and a recipient that has an address is
    returned as it is. *)
Theorem useRecipientToSendTo_idempotent
    (secureSendPhoneNumberMapping : SendConfirmation.SecureSendPhoneNumberMapping)
    (e164NumberToAddress : SendConfirmation.E164NumberToAddress)
    (r : SendConfirmation.Recipient) :
  let resolve :=
    SendConfirmation.useRecipientToSendTo secureSendPhoneNumberMapping
      e164NumberToAddress in
  resolve (resolve r) = resolve r /\
  SendConfirmation.e164PhoneNumber (resolve r) = SendConfirmation.e164PhoneNumber r /\
  SendConfirmation.details (resolve r) = SendConfirmation.details r /\
  (truthyString (SendConfirmation.address r) = true -> resolve r = r).
Proof.
  cbv zeta. unfold SendConfirmation.useRecipientToSendTo.
  destruct r as [[[|a0 a]|] [[|e0 e]|] t d]; cbn; try done;
    by destruct (negb _ && true).
Qed.

(** X14.  When the confirm button is enabled, a prepared transaction is
    present and onSend tracks send_confirm_send and then dispatches
    sendPayment with that transaction, the comment and the recipient of the
    component: the SEND_PAYMENT_FAILED error is not dispatched. *)
Theorem enabled_send_dispatches_sendPayment (c : SendConfirmation.Component) :
  SendConfirmation.disableSend c = false ->
  SendConfirmation.isSending c = false /\
  exists preparedTransaction properties,
    SendConfirmation.preparedTransaction c = Some preparedTransaction /\
    SendConfirmation.event_recipientType properties =
      SendConfirmation.recipientType (SendConfirmation.recipient c) /\
    SendConfirmation.onSend c =
      [SendConfirmation.ValoraAnalytics_track_send_confirm_send properties;
       SendConfirmation.dispatch_sendPayment
         (SendConfirmation.tokenAmount c) (SendConfirmation.tokenId c)
         (SendConfirmation.usdAmount c) (SendConfirmation.comment c)
         (SendConfirmation.recipient c) (SendConfirmation.fromModal c)
         None preparedTransaction].
Proof.
  unfold SendConfirmation.disableSend, SendConfirmation.onSend.
  intros [Hsending Hprepared]%orb_false_iff. split; [done|].
  destruct (SendConfirmation.preparedTransaction c) as [tx|]; [|done].
  eexists _, _. split; [reflexivity|]. split; [|reflexivity]. reflexivity.
Qed.

(** Without a prepared transaction the confirm button is disabled, and
    onSend, were it called, would dispatch the SEND_PAYMENT_FAILED error and
    nothing else: no analytics event and no sendPayment. *)
Lemma no_prepared_transaction_no_payment (c : SendConfirmation.Component) :
  SendConfirmation.preparedTransaction c = None ->
  SendConfirmation.disableSend c = true /\
  SendConfirmation.onSend c = [SendConfirmation.dispatch_showError_SEND_PAYMENT_FAILED].
Proof.
  unfold SendConfirmation.disableSend, SendConfirmation.onSend. intros ->.
  split; [apply orb_true_r | done].
Qed.

End SendConfirmationProperties.

(** ** The properties on concrete inputs *)

(** C2 as stated fails for a user who chose to restore an account: the
    transition from EnableBiometry goes to ImportSelect directly, while the
    transition from PincodeSet without biometry pops to Welcome first. *)
Lemma EnableBiometry_omits_popToScreen :
  transitionCalls screenIdentifier restoringWithBiometry Screens.EnableBiometry =
    Ok [CallNavigate Screens.ImportSelect None;
        CallDispatch (updateLastOnboardingScreen Screens.ImportSelect)] /\
  transitionCalls screenIdentifier (withoutBiometry restoringWithBiometry)
      Screens.PincodeSet =
    Ok [CallPopToScreen Screens.Welcome;
        CallNavigate Screens.ImportSelect None;
        CallDispatch (updateLastOnboardingScreen Screens.ImportSelect)] /\
  transitionCalls screenIdentifier restoringWithBiometry Screens.EnableBiometry <>
  transitionCalls screenIdentifier (withoutBiometry restoringWithBiometry)
    Screens.PincodeSet /\
  goToNextOnboardingScreen screenIdentifier Screens.EnableBiometry
    restoringWithBiometry [] <>
  goToNextOnboardingScreen screenIdentifier Screens.PincodeSet
    (withoutBiometry restoringWithBiometry) [].
Proof. repeat split; first [reflexivity | discriminate]. Qed.

Lemma step_le_totalSteps_scenarioA :
  getOnboardingStepValues allFeaturesEnabled screenIdentifier
    Screens.ProtectWallet (scenarioA false) 3 =
    Some (Ok {| totalSteps := 3; step := 2 |}) /\
  step {| totalSteps := 3; step := 2 |} <= totalSteps {| totalSteps := 3; step := 2 |}.
Proof.
  split; [reflexivity|].
  apply (step_le_totalSteps allFeaturesEnabled screenIdentifier
           Screens.ProtectWallet (scenarioA false) 3).
  reflexivity.
Defined.

Lemma unvisited_EnableBiometry_scenarioA :
  includes
    (visitedScreens screenIdentifier Screens.EnableBiometry (scenarioA false) (6 + 0)
       (initialSimState allFeaturesEnabled (scenarioA false)))
    Screens.EnableBiometry = false /\
  exists r,
    getOnboardingStepValues allFeaturesEnabled screenIdentifier
      Screens.EnableBiometry (scenarioA false) (6 + 0) = Some (Ok r) /\
    step r = totalSteps r.
Proof.
  split; [reflexivity|].
  apply (unvisited_target_step_eq_totalSteps allFeaturesEnabled screenIdentifier
           Screens.EnableBiometry (scenarioA false) 0).
  reflexivity.
Defined.

Lemma driver_advance_scenarioA :
  goToNextOnboardingScreen screenIdentifier Screens.PincodeSet (scenarioA false) [] =
    Ok [store_dispatch initializeAccount;
        NavigationService_navigate Screens.ProtectWallet None;
        store_dispatch (updateLastOnboardingScreen Screens.ProtectWallet)] /\
  exists pre,
    Forall (fun e => e = NavigationService_popToScreen Screens.Welcome \/
                     e = store_dispatch initializeAccount) pre /\
    ((exists d p,
        includes END_OF_ONBOARDING_SCREENS d = false /\
        [store_dispatch initializeAccount;
         NavigationService_navigate Screens.ProtectWallet None;
         store_dispatch (updateLastOnboardingScreen Screens.ProtectWallet)] =
        [] ++ pre ++
        [NavigationService_navigate d p;
         store_dispatch (updateLastOnboardingScreen d)]) \/
     (exists f,
        [store_dispatch initializeAccount;
         NavigationService_navigate Screens.ProtectWallet None;
         store_dispatch (updateLastOnboardingScreen Screens.ProtectWallet)] =
        [] ++ pre ++
        [store_dispatch onboardingCompleted;
         store_dispatch (updateLastOnboardingScreen f);
         store_dispatch (updateStatsigAndNavigate f)])).
Proof.
  split; [reflexivity|].
  apply (proj2 (driver_finish_and_advance screenIdentifier)
           Screens.PincodeSet (scenarioA false)).
  reflexivity.
Defined.

Lemma LinkPhoneNumber_finishes_scenarioA :
  Screens.LinkPhoneNumber ∈ [Screens.LinkPhoneNumber; Screens.VerificationStartScreen] /\
  transitionCalls screenIdentifier (scenarioA false) Screens.LinkPhoneNumber =
    Ok [CallFinishOnboarding Screens.ChooseYourAdventure] /\
  goToNextOnboardingScreen screenIdentifier Screens.LinkPhoneNumber (scenarioA false) [] =
    Ok [store_dispatch onboardingCompleted;
        store_dispatch (updateLastOnboardingScreen Screens.ChooseYourAdventure);
        store_dispatch (updateStatsigAndNavigate Screens.ChooseYourAdventure)].
Proof.
  assert (Hin : Screens.LinkPhoneNumber ∈
                  [Screens.LinkPhoneNumber; Screens.VerificationStartScreen])
    by constructor.
  split; [exact Hin|].
  destruct (verification_screens_finish screenIdentifier (scenarioA false)
              Screens.LinkPhoneNumber Hin) as (_ & Hcalls & Hdriver).
  split; [exact Hcalls | exact (Hdriver [])].
Defined.

Lemma selector_all_features_enabled :
  showCloudAccountBackupSetup
    (onboardingPropsSelector allFeaturesEnabled false None None false) = true /\
  showCloudAccountBackupRestore
    (onboardingPropsSelector allFeaturesEnabled false None None false) = true /\
  allFeaturesEnabled ToggleableOnboardingFeatures.CloudBackup = true.
Proof.
  split; [reflexivity|].
  apply (selector_setup_implies_restore allFeaturesEnabled false None None false).
  reflexivity.
Defined.

Lemma EnableBiometry_unreachable_no_feature :
  noFeatureEnabled ToggleableOnboardingFeatures.EnableBiometry = false /\
  supportedBiometryType
    (onboardingPropsSelector noFeatureEnabled false None
       (Some BIOMETRY_TYPE.FACE_ID) false) = None /\
  Screens.EnableBiometry ∉
    visitedScreens screenIdentifier Screens.PincodeSet
      (onboardingPropsSelector noFeatureEnabled false None
         (Some BIOMETRY_TYPE.FACE_ID) false) 6
      (initialSimState noFeatureEnabled
         (onboardingPropsSelector noFeatureEnabled false None
            (Some BIOMETRY_TYPE.FACE_ID) false)).
Proof.
  split; [reflexivity|].
  destruct (EnableBiometry_disabled_unreachable noFeatureEnabled screenIdentifier
              false None (Some BIOMETRY_TYPE.FACE_ID) false eq_refl)
    as (Hnone & _ & Hvisited).
  split; [exact Hnone | exact (Hvisited Screens.PincodeSet 6)].
Defined.

(** Scenario B: with a fingerprint reader, PincodeSet leads to
    EnableBiometry. *)
Example scenarioB :
  transitionCalls screenIdentifier
    {| recoveringFromStoreWipe := false;
       choseToRestoreAccount := None;
       supportedBiometryType := Some BIOMETRY_TYPE.FINGERPRINT;
       skipVerification := false;
       numberAlreadyVerifiedCentrally := false;
       showCloudAccountBackupRestore := false;
       showCloudAccountBackupSetup := false;
       skipProtectWallet := false |}
    Screens.PincodeSet =
  Ok [CallNavigate Screens.EnableBiometry None;
      CallDispatch (updateLastOnboardingScreen Screens.EnableBiometry)].
Proof. reflexivity. Qed.

(** The longest flows take four transitions: three iterations are not
    enough for a restoring user with biometry, four are. *)
Example four_transitions :
  getOnboardingStepValues allFeaturesEnabled screenIdentifier Screens.ImportSelect
    restoringWithBiometry 3 = None /\
  visitedScreens screenIdentifier Screens.ImportSelect restoringWithBiometry 4
    (initialSimState allFeaturesEnabled restoringWithBiometry) =
    [Screens.PincodeSet; Screens.EnableBiometry; Screens.ImportSelect;
     Screens.LinkPhoneNumber; Screens.ChooseYourAdventure] /\
  getOnboardingStepValues allFeaturesEnabled screenIdentifier Screens.ImportSelect
    restoringWithBiometry 4 = Some (Ok {| totalSteps := 4; step := 3 |}).
Proof. repeat split. Qed.

(** A screen without a case in the switch. *)
Example Welcome_is_unhandled :
  goToNextOnboardingScreen screenIdentifier Screens.Welcome (scenarioA false) [] =
  Throw {| message :=
    "No step info found for Welcome. this step needs to be handled in _getStepInfo" |}.
Proof. reflexivity. Qed.

(** The third screen of scenario A is step 3. *)
Lemma step_of_VerificationStartScreen_scenarioA :
  visitedScreens screenIdentifier Screens.VerificationStartScreen (scenarioA false) (4 + 0)
    (initialSimState allFeaturesEnabled (scenarioA false)) !! 2 =
    Some Screens.VerificationStartScreen /\
  includes END_OF_ONBOARDING_SCREENS Screens.VerificationStartScreen = false /\
  exists r,
    getOnboardingStepValues allFeaturesEnabled screenIdentifier
      Screens.VerificationStartScreen (scenarioA false) (4 + 0) = Some (Ok r) /\
    step r = 3.
Proof.
  split; [reflexivity|]. split; [reflexivity|].
  apply (step_is_position_in_flow allFeaturesEnabled screenIdentifier
           Screens.VerificationStartScreen (scenarioA false) 0 2);
    reflexivity.
Defined.

Lemma restore_from_PincodeSet_keeps_stack :
  goToNextOnboardingScreen screenIdentifier Screens.PincodeSet
    (withoutBiometry restoringWithBiometry) [] =
    Ok [NavigationService_popToScreen Screens.Welcome;
        NavigationService_navigate Screens.ImportSelect None;
        store_dispatch (updateLastOnboardingScreen Screens.ImportSelect)] /\
  exists evs,
    [NavigationService_popToScreen Screens.Welcome;
     NavigationService_navigate Screens.ImportSelect None;
     store_dispatch (updateLastOnboardingScreen Screens.ImportSelect)] = [] ++ evs /\
    forall d p, NavigationService_navigateClearingStack d p ∉ evs.
Proof.
  split; [reflexivity|].
  apply (driver_never_clears_stack screenIdentifier Screens.PincodeSet
           (withoutBiometry restoringWithBiometry)).
  reflexivity.
Defined.

Lemma initializeAccount_scenarioA :
  transitionCalls screenIdentifier (scenarioA false) Screens.PincodeSet =
    Ok [CallDispatch initializeAccount;
        CallNavigate Screens.ProtectWallet None;
        CallDispatch (updateLastOnboardingScreen Screens.ProtectWallet)] /\
  (CallDispatch initializeAccount ∈
     [CallDispatch initializeAccount;
      CallNavigate Screens.ProtectWallet None;
      CallDispatch (updateLastOnboardingScreen Screens.ProtectWallet)] <->
   truthy (choseToRestoreAccount (scenarioA false)) = false /\
   (Screens.PincodeSet = Screens.EnableBiometry \/
    (Screens.PincodeSet = Screens.PincodeSet /\
     supportedBiometryType (scenarioA false) = None))).
Proof.
  split; [reflexivity|].
  apply (initializeAccount_dispatched_iff screenIdentifier (scenarioA false)
           Screens.PincodeSet).
  reflexivity.
Defined.

Lemma scenarioD_skips_verification :
  skipVerification scenarioD = true /\
  visitedScreens screenIdentifier Screens.ProtectWallet scenarioD 4
    (initialSimState allFeaturesEnabled scenarioD) =
    [Screens.PincodeSet; Screens.ProtectWallet; Screens.ChooseYourAdventure] /\
  (Screens.LinkPhoneNumber ∉
     visitedScreens screenIdentifier Screens.ProtectWallet scenarioD 4
       (initialSimState allFeaturesEnabled scenarioD)) /\
  (Screens.VerificationStartScreen ∉
     visitedScreens screenIdentifier Screens.ProtectWallet scenarioD 4
       (initialSimState allFeaturesEnabled scenarioD)).
Proof.
  split; [reflexivity|]. split; [reflexivity|].
  apply (skipVerification_skips_verification_screens allFeaturesEnabled
           screenIdentifier Screens.ProtectWallet scenarioD 4).
  reflexivity.
Defined.

Lemma no_feature_skips_ProtectWallet :
  skipProtectWallet (onboardingPropsSelector noFeatureEnabled false None None false) = true /\
  Screens.ProtectWallet ∉
    visitedScreens screenIdentifier Screens.PincodeSet
      (onboardingPropsSelector noFeatureEnabled false None None false) 4
      (initialSimState noFeatureEnabled
         (onboardingPropsSelector noFeatureEnabled false None None false)).
Proof.
  split; [reflexivity|].
  apply (skipProtectWallet_skips_ProtectWallet noFeatureEnabled screenIdentifier
           Screens.PincodeSet
           (onboardingPropsSelector noFeatureEnabled false None None false) 4).
  reflexivity.
Defined.

Lemma no_feature_recovery_skips_cloud_screens :
  noFeatureEnabled ToggleableOnboardingFeatures.CloudBackup = false /\
  visitedScreens screenIdentifier Screens.ImportWallet
    (onboardingPropsSelector noFeatureEnabled true None None false) 4
    (initialSimState noFeatureEnabled
       (onboardingPropsSelector noFeatureEnabled true None None false)) =
    [Screens.ImportWallet; Screens.ChooseYourAdventure] /\
  (Screens.ImportSelect ∉
     visitedScreens screenIdentifier Screens.ImportWallet
       (onboardingPropsSelector noFeatureEnabled true None None false) 4
       (initialSimState noFeatureEnabled
          (onboardingPropsSelector noFeatureEnabled true None None false))) /\
  (Screens.SignInWithEmail ∉
     visitedScreens screenIdentifier Screens.ImportWallet
       (onboardingPropsSelector noFeatureEnabled true None None false) 4
       (initialSimState noFeatureEnabled
          (onboardingPropsSelector noFeatureEnabled true None None false))).
Proof.
  split; [reflexivity|]. split; [reflexivity|].
  apply (CloudBackup_disabled_skips_cloud_screens noFeatureEnabled screenIdentifier
           true None None false Screens.ImportWallet 4).
  reflexivity.
Defined.

Lemma recovering_all_features_enabled :
  recoveringFromStoreWipe
    (onboardingPropsSelector allFeaturesEnabled true None None false) = true /\
  exists r,
    getOnboardingStepValues allFeaturesEnabled screenIdentifier Screens.LinkPhoneNumber
      (onboardingPropsSelector allFeaturesEnabled true None None false) (2 + 0) =
      Some (Ok r) /\
    totalSteps r <= 2 /\
    Forall (fun s => s ∈ [Screens.ImportSelect; Screens.ImportWallet;
                          Screens.LinkPhoneNumber; Screens.VerificationStartScreen;
                          Screens.ChooseYourAdventure])
      (visitedScreens screenIdentifier Screens.LinkPhoneNumber
         (onboardingPropsSelector allFeaturesEnabled true None None false) (2 + 0)
         (initialSimState allFeaturesEnabled
            (onboardingPropsSelector allFeaturesEnabled true None None false))).
Proof.
  split; [reflexivity|].
  apply (recovering_flow_is_short allFeaturesEnabled screenIdentifier
           Screens.LinkPhoneNumber
           (onboardingPropsSelector allFeaturesEnabled true None None false) 0).
  reflexivity.
Defined.

Lemma driver_follows_step_counter_scenarioA :
  loopBody screenIdentifier Screens.ProtectWallet (scenarioA false)
    (initialSimState allFeaturesEnabled (scenarioA false)) =
    Ok {| stepCounter := 2; totalCounter := 2; reachedStep := false;
          currentScreen := Screens.ProtectWallet |} /\
  goToNextOnboardingScreen screenIdentifier Screens.PincodeSet (scenarioA false) [] =
    Ok [store_dispatch initializeAccount;
        NavigationService_navigate Screens.ProtectWallet None;
        store_dispatch (updateLastOnboardingScreen Screens.ProtectWallet)] /\
  exists evs,
    [store_dispatch initializeAccount;
     NavigationService_navigate Screens.ProtectWallet None;
     store_dispatch (updateLastOnboardingScreen Screens.ProtectWallet)] = [] ++ evs /\
    updatedLastScreens evs = [Screens.ProtectWallet].
Proof.
  split; [reflexivity|]. split; [reflexivity|].
  destruct (driver_follows_step_counter screenIdentifier Screens.ProtectWallet
              (scenarioA false)
              (initialSimState allFeaturesEnabled (scenarioA false))
              {| stepCounter := 2; totalCounter := 2; reachedStep := false;
                 currentScreen := Screens.ProtectWallet |}
              []
              [store_dispatch initializeAccount;
               NavigationService_navigate Screens.ProtectWallet None;
               store_dispatch (updateLastOnboardingScreen Screens.ProtectWallet)]
              eq_refl eq_refl) as (evs & Hevs & Hlast & _).
  exists evs. split; [exact Hevs | exact Hlast].
Defined.

Lemma restore_all_features_enabled :
  truthy (Some true) = true /\
  transitionCalls screenIdentifier
    (onboardingPropsSelector allFeaturesEnabled false (Some true)
       (Some BIOMETRY_TYPE.FACE_ID) false)
    Screens.EnableBiometry =
    Ok [CallNavigate (firstOnboardingScreen allFeaturesEnabled true) None;
        CallDispatch
          (updateLastOnboardingScreen (firstOnboardingScreen allFeaturesEnabled true))] /\
  firstOnboardingScreen allFeaturesEnabled true = Screens.ImportSelect.
Proof.
  split; [reflexivity|]. split; [|reflexivity].
  apply (restore_goes_to_recovery_start allFeaturesEnabled screenIdentifier
           false (Some true) (Some BIOMETRY_TYPE.FACE_ID) false).
  reflexivity.
Defined.

Lemma sample_send_dispatches_sendPayment :
  @SendConfirmation.disableSend sampleCollaborators sampleComponent = false /\
  @SendConfirmation.isSending sampleCollaborators sampleComponent = false /\
  exists preparedTransaction properties,
    @SendConfirmation.preparedTransaction sampleCollaborators sampleComponent =
      Some preparedTransaction /\
    @SendConfirmation.event_recipientType sampleCollaborators properties =
      @SendConfirmation.recipientType sampleCollaborators
        (@SendConfirmation.recipient sampleCollaborators sampleComponent) /\
    @SendConfirmation.onSend sampleCollaborators sampleComponent =
      [@SendConfirmation.ValoraAnalytics_track_send_confirm_send sampleCollaborators
         properties;
       @SendConfirmation.dispatch_sendPayment sampleCollaborators
         (@SendConfirmation.tokenAmount sampleCollaborators sampleComponent)
         (@SendConfirmation.tokenId sampleCollaborators sampleComponent)
         (@SendConfirmation.usdAmount sampleCollaborators sampleComponent)
         (@SendConfirmation.comment sampleCollaborators sampleComponent)
         (@SendConfirmation.recipient sampleCollaborators sampleComponent)
         (@SendConfirmation.fromModal sampleCollaborators sampleComponent)
         None preparedTransaction].
Proof.
  split; [reflexivity|].
  apply (@enabled_send_dispatches_sendPayment sampleCollaborators sampleComponent).
  reflexivity.
Defined.

(** The recipient of the sample component was given by its phone number;
    resolving it found the address, and resolving again changes nothing. *)
Example sample_recipient_resolved :
  @SendConfirmation.useRecipientToSendTo sampleCollaborators tt tt samplePhoneRecipient =
    @SendConfirmation.Build_Recipient sampleCollaborators
      (Some "0xabc"%string) (Some "+15551234567"%string)
      RecipientType.PhoneNumber "Alice"%string /\
  @SendConfirmation.useRecipientToSendTo sampleCollaborators tt tt
    (@SendConfirmation.useRecipientToSendTo sampleCollaborators tt tt
       samplePhoneRecipient) =
  @SendConfirmation.useRecipientToSendTo sampleCollaborators tt tt samplePhoneRecipient.
Proof. split; reflexivity. Qed.

(** A new account whose number is already verified still goes through
    VerificationStartScreen, after ProtectWallet. *)
Lemma verified_new_account_still_verifies :
  numberAlreadyVerifiedCentrally scenarioAVerified = true /\
  visitedScreens screenIdentifier Screens.PincodeSet scenarioAVerified 4
    (initialSimState allFeaturesEnabled scenarioAVerified) =
    [Screens.PincodeSet; Screens.ProtectWallet; Screens.VerificationStartScreen;
     Screens.ChooseYourAdventure] /\
  (Screens.LinkPhoneNumber ∉
     visitedScreens screenIdentifier Screens.PincodeSet scenarioAVerified 4
       (initialSimState allFeaturesEnabled scenarioAVerified)).
Proof.
  split; [reflexivity|]. split; [reflexivity|].
  apply (verified_centrally_verifies_only_after_ProtectWallet allFeaturesEnabled
           screenIdentifier Screens.PincodeSet scenarioAVerified 4).
  reflexivity.
Defined.
